(** * mukkai-delivery frontend: API client wrapper and proxy server

  A shallow embedding of the two source files of the repository:

  - the API client module (axios instances, the request and response
    interceptors, [testBackendConnection] and [axiosWithFallback]);
  - [server.js] (the two proxy routes and their hooks).

  Browser state ([localStorage], [window.location.href]) is threaded
  explicitly through a small state monad [M].  The network is an oracle
  [net] that answers each dispatched request with a settled promise.
  [localStorage] is taken to exist in every environment; [window] need
  not, and an unguarded use of it then throws.  Console output is not
  part of the model. *)

From Stdlib Require Import ZArith String Ascii List Bool Lia DecimalString.
From stdpp Require Import base option gmap strings list fin_maps.
Import ListNotations.
Local Open Scope Z_scope.
Local Open Scope string_scope.

(** ** JavaScript values *)

Module Js.

(** JSON-shaped values, with [undefined].  Strings stand for their UTF-8
    encoding; numbers are the integers. *)
#[local] Unset Elimination Schemes.
Inductive value : Type :=
| Undefined
| Null
| Bool (b : bool)
| Num (n : Z)
| Str (s : string)
| Arr (xs : list value)
| Obj (fields : list (string * value)).
#[local] Set Elimination Schemes.

(** ToBoolean. *)
Definition truthy (v : value) : bool :=
  match v with
  | Undefined | Null => false
  | Bool b => b
  | Num n => negb (Z.eqb n 0)
  | Str s => negb (String.eqb s "")
  | Arr _ | Obj _ => true
  end.

Fixpoint assoc (k : string) (fs : list (string * value)) : value :=
  match fs with
  | [] => Undefined
  | (k', v) :: fs' => if String.eqb k k' then v else assoc k fs'
  end.

(** [v?.k]: reading a named property through optional chaining.  Only
    objects carry the data properties read by the client. *)
Definition prop (v : value) (k : string) : value :=
  match v with
  | Obj fs => assoc k fs
  | _ => Undefined
  end.

(** [v === n] for a number literal [n]. *)
Definition is_num (v : value) (n : Z) : bool :=
  match v with
  | Num m => Z.eqb m n
  | _ => false
  end.

(** [String.prototype.includes]. *)
Fixpoint includes (s sub : string) : bool :=
  String.prefix sub s ||
  match s with
  | EmptyString => false
  | String _ s' => includes s' sub
  end.

(** Truthiness of a value that is a string or [null]/[undefined]. *)
Definition truthy_str (t : option string) : bool :=
  match t with
  | Some s => negb (String.eqb s "")
  | None => false
  end.

(** [String.prototype.toLowerCase] on ASCII letters. *)
Definition lower_ascii (a : ascii) : ascii :=
  let n := N_of_ascii a in
  if (N.leb 65 n && N.leb n 90)%bool then ascii_of_N (n + 32) else a.

Fixpoint toLowerCase (s : string) : string :=
  match s with
  | EmptyString => EmptyString
  | String a s' => String (lower_ascii a) (toLowerCase s')
  end.

(** *** A serializer

    [JSON.stringify] on the values above: integers print in decimal,
    strings are quoted with the JSON escapes, [undefined] prints as
    [null] inside arrays and drops the field inside objects. *)

Definition hex_digit (n : N) : ascii :=
  ascii_of_N (if N.ltb n 10 then 48 + n else 87 + n).

Definition escape_ascii (a : ascii) : string :=
  let n := N_of_ascii a in
  if N.eqb n 34 then String "092" (String "034" "")
  else if N.eqb n 92 then "\\"
  else if N.eqb n 8 then "\b"
  else if N.eqb n 9 then "\t"
  else if N.eqb n 10 then "\n"
  else if N.eqb n 12 then "\f"
  else if N.eqb n 13 then "\r"
  else if N.ltb n 32 then
    String.append "\u00"
      (String (hex_digit (N.div n 16)) (String (hex_digit (N.modulo n 16)) ""))
  else String a "".

Fixpoint escape (s : string) : string :=
  match s with
  | EmptyString => EmptyString
  | String a s' => String.append (escape_ascii a) (escape s')
  end.

Definition quote (s : string) : string :=
  String.append (String "034" (escape s)) (String "034" "").

Fixpoint join (sep : string) (xs : list string) : string :=
  match xs with
  | [] => ""
  | [x] => x
  | x :: xs' => String.append x (String.append sep (join sep xs'))
  end.

Fixpoint stringify (v : value) : string :=
  match v with
  | Undefined | Null => "null"
  | Bool true => "true"
  | Bool false => "false"
  | Num n => NilZero.string_of_int (Z.to_int n)
  | Str s => quote s
  | Arr xs =>
      String.append "["
        (String.append
           (join "," ((fix items (l : list value) : list string :=
                         match l with
                         | [] => []
                         | x :: l' => stringify x :: items l'
                         end) xs))
           "]")
  | Obj fs =>
      String.append "{"
        (String.append
           (join "," ((fix members (l : list (string * value))
                         : list string :=
                         match l with
                         | [] => []
                         | (k, Undefined) :: l' => members l'
                         | (k, x) :: l' =>
                             String.append (quote k)
                               (String.append ":" (stringify x))
                             :: members l'
                         end) fs))
           "}")
  end.

End Js.

(** ** The API client module *)

Module Client.

(** *** Build-time and browser environment *)

Record Env : Type := mkEnv {
  NODE_ENV : option string;          (* process.env.NODE_ENV *)
  window_hostname : option string    (* window.location.hostname; None when
                                        [typeof window === 'undefined'] *)
}.

Definition isProduction (env : Env) : bool :=
  bool_decide (NODE_ENV env = Some "production") ||
  match window_hostname env with
  | Some h => Js.includes h "herokuapp.com"
  | None => false
  end.

Definition FALLBACK_API_BASE_URL : string :=
  "https://mukkai-backend-api-f9dc2d5aad02.herokuapp.com".

Definition API_BASE_URL (env : Env) : string :=
  if isProduction env then ""
  else "https://mukkai-backend-api-f9dc2d5aad02.herokuapp.com".

(** *** Requests, responses, errors *)

(** The optional [config] argument a caller hands to [get]/[post]. *)
Record UserConfig : Type := mkUserConfig {
  uc_headers : gmap string string;
  uc_timeout : option Z
}.

(** The request configuration axios dispatches. *)
Record ReqConfig : Type := mkReqConfig {
  method : string;
  baseURL : string;
  url : string;
  headers : gmap string string;
  data : Js.value;
  timeout : Z;
  withCredentials : bool
}.

Record Response : Type := mkResponse {
  status : Z;
  statusText : string;
  resp_data : Js.value
}.

(** [AxiosError]; every field read by the module is optional. *)
Record AxiosError : Type := mkError {
  code : option string;
  message : option string;
  config : option ReqConfig;
  response : option Response
}.

(** A settled promise. *)
Inductive Outcome : Type :=
| Resolved (r : Response)
| Rejected (e : AxiosError).

Inductive ClientId : Type := Primary | Fallback.

(** *** Browser state and observable effects *)

Inductive Event : Type :=
| ECall (c : ClientId) (m url : string) (d : Js.value)
        (cfg : option UserConfig)        (* instance.get / instance.post *)
| ERemoveItem (key : string)             (* localStorage.removeItem *)
| ENavigate (href : string).             (* window.location.href = ... *)

Record World : Type := mkWorld {
  storage : gmap string string;          (* localStorage *)
  href : string;                         (* window.location.href *)
  trace : list Event                     (* effects so far, oldest first *)
}.

Definition M (A : Type) : Type := World -> A * World.

Definition ret {A} (a : A) : M A := fun w => (a, w).

Definition bind {A B} (m : M A) (k : A -> M B) : M B :=
  fun w => let (a, w') := m w in k a w'.

Declare Scope client_scope.
Delimit Scope client_scope with client.
Notation "'let*' x ':=' m 'in' k" := (bind m (fun x => k))
  (at level 10, x name, m at level 100, k at level 200) : client_scope.
Notation "m '>>' k" := (bind m (fun _ => k))
  (at level 90, right associativity) : client_scope.
Local Open Scope client_scope.

Definition emit (e : Event) : M unit :=
  fun w => (tt, mkWorld (storage w) (href w) (trace w ++ [e])).

Definition getItem (k : string) : M (option string) :=
  fun w => (storage w !! k, w).

Definition removeItem (k : string) : M unit :=
  fun w => (tt, mkWorld (delete k (storage w)) (href w)
                        (trace w ++ [ERemoveItem k])).

(** What the unguarded read of the global [window] throws where there
    is none, as the module's error handling reads it: a [ReferenceError]
    has a message and no [code], [config] or [response]. *)
Definition ReferenceError_window : AxiosError :=
  mkError None (Some "window is not defined") None None.

(** [window.location.href = u].  Where there is no [window] the
    assignment throws and nothing is navigated; the result is what was
    thrown, if anything. *)
Definition set_location_href (env : Env) (u : string)
  : M (option AxiosError) :=
  fun w =>
    match window_hostname env with
    | Some _ => (None, mkWorld (storage w) u (trace w ++ [ENavigate u]))
    | None => (Some ReferenceError_window, w)
    end.

(** *** Axios instances

    [axios.create] yields an instance holding its defaults and two
    interceptor chains; [instance.get]/[instance.post] merge the call's
    arguments into the defaults, run the request chain, dispatch, and run
    the response chain on the settled result. *)

Record Defaults : Type := mkDefaults {
  d_baseURL : string;
  d_timeout : Z;
  d_headers : gmap string string;
  d_withCredentials : bool
}.

Record Instance : Type := mkInstance {
  inst_id : ClientId;
  defaults : Defaults;
  request_interceptors : list (ReqConfig -> M ReqConfig);
  response_interceptors :
    list ((Response -> M Outcome) * (AxiosError -> M Outcome))
}.

Definition axios_create (id : ClientId) (d : Defaults) : Instance :=
  mkInstance id d [] [].

Definition request_use (i : Instance) (h : ReqConfig -> M ReqConfig)
  : Instance :=
  mkInstance (inst_id i) (defaults i) (request_interceptors i ++ [h])
             (response_interceptors i).

Definition response_use (i : Instance) (ok : Response -> M Outcome)
    (err : AxiosError -> M Outcome) : Instance :=
  mkInstance (inst_id i) (defaults i) (request_interceptors i)
             (response_interceptors i ++ [(ok, err)]).

Definition mergeConfig (d : Defaults) (m u : string) (dat : Js.value)
    (cfg : option UserConfig) : ReqConfig :=
  {| method := m;
     baseURL := d_baseURL d;
     url := u;
     headers := match cfg with
                | Some c => uc_headers c ∪ d_headers d
                | None => d_headers d
                end;
     data := dat;
     timeout := match cfg with
                | Some c => default (d_timeout d) (uc_timeout c)
                | None => d_timeout d
                end;
     withCredentials := d_withCredentials d |}.

Fixpoint run_request_chain (hs : list (ReqConfig -> M ReqConfig))
    (cfg : ReqConfig) : M ReqConfig :=
  match hs with
  | [] => ret cfg
  | h :: hs' => let* cfg' := h cfg in run_request_chain hs' cfg'
  end.

Fixpoint run_response_chain
    (hs : list ((Response -> M Outcome) * (AxiosError -> M Outcome)))
    (o : Outcome) : M Outcome :=
  match hs with
  | [] => ret o
  | (ok, err) :: hs' =>
      let* o' := match o with
                 | Resolved r => ok r
                 | Rejected e => err e
                 end in
      run_response_chain hs' o'
  end.

Definition set_header (c : ReqConfig) (k v : string) : ReqConfig :=
  {| method := method c; baseURL := baseURL c; url := url c;
     headers := <[k := v]> (headers c);
     data := data c; timeout := timeout c;
     withCredentials := withCredentials c |}.

(** The fulfilled handler installed by [addRequestInterceptor]; the
    rejected handler re-rejects and is never reached by a handler that
    always fulfils.  [name] only labels console output. *)
Definition request_handler (name : string) (config : ReqConfig)
  : M ReqConfig :=
  let* token := getItem "accessToken" in
  let* token := (if negb (Js.truthy_str token)
                 then getItem "storeUserAccessToken"
                 else ret token) in
  match token with
  | Some t =>
      if Js.truthy_str (Some t)
      then ret (set_header config "authorization-token" t)
      else ret config
  | None => ret config
  end.

Definition addRequestInterceptor (instance : Instance) (name : string)
  : Instance :=
  request_use instance (request_handler name).

(** [error.response?.status === n]. *)
Definition status_is (error : AxiosError) (n : Z) : bool :=
  match response error with
  | Some r => Z.eqb (status r) n
  | None => false
  end.

Definition response_ok (r : Response) : M Outcome := ret (Resolved r).

(** The rejected handler is an [async] function: whatever it throws is
    what the promise rejects with. *)
Definition response_error (env : Env) (error : AxiosError) : M Outcome :=
  let originalRequest := config error in
  if status_is error 401 && bool_decide (is_Some originalRequest) then
    removeItem "accessToken" >>
    removeItem "refreshToken" >>
    let* thrown := set_location_href env "/auth/login" in
    match thrown with
    | Some exn => ret (Rejected exn)
    | None => ret (Rejected error)
    end
  else ret (Rejected error).

Section Module_scope.

Variable env : Env.
(** The network: how a dispatched request settles, given everything that
    happened before. *)
Variable net : World -> ReqConfig -> Outcome.

Definition json_defaults (base : string) : Defaults :=
  {| d_baseURL := base;
     d_timeout := 15000;
     d_headers := {[ "Content-Type" := "application/json";
                     "Accept" := "application/json" ]};
     d_withCredentials := false |}.

Definition axiosInstance : Instance :=
  response_use
    (addRequestInterceptor
       (axios_create Primary (json_defaults (API_BASE_URL env))) "PROXY")
    response_ok (response_error env).

Definition fallbackAxiosInstance : Instance :=
  addRequestInterceptor
    (axios_create Fallback (json_defaults FALLBACK_API_BASE_URL)) "DIRECT".

Definition dispatch (cfg : ReqConfig) : M Outcome :=
  fun w => (net w cfg, w).

(** What reaches the network for a call: the merged configuration after
    the request chain. *)
Definition prepare (i : Instance) (m u : string) (dat : Js.value)
    (cfg : option UserConfig) : M ReqConfig :=
  emit (ECall (inst_id i) m u dat cfg) >>
  run_request_chain (request_interceptors i)
    (mergeConfig (defaults i) m u dat cfg).

Definition request (i : Instance) (m u : string) (dat : Js.value)
    (cfg : option UserConfig) : M Outcome :=
  let* c := prepare i m u dat cfg in
  let* o := dispatch c in
  run_response_chain (response_interceptors i) o.

(** [x?.data?.result?.result_code === 2003] on a response body. *)
Definition result_code_2003 (d : Js.value) : bool :=
  Js.is_num (Js.prop (Js.prop d "result") "result_code") 2003.

Definition testBackendConnection : M bool :=
  let* o := request axiosInstance "get" "/health" Js.Undefined
              (Some (mkUserConfig ∅ (Some 5000))) in
  match o with
  | Resolved response =>
      if result_code_2003 (resp_data response) then ret true
      else ret true
  | Rejected error =>
      if match response error with
         | Some r => result_code_2003 (resp_data r)
         | None => false
         end
      then ret true
      else if status_is error 400 &&
              match response error with
              | Some r => Js.truthy (Js.prop (resp_data r) "result")
              | None => false
              end
      then ret true
      else if status_is error 401 || status_is error 403
      then ret true
      else ret false
  end.

(** [error.message?.includes(s)]. *)
Definition message_includes (error : AxiosError) (s : string) : bool :=
  match message error with
  | Some m => Js.includes m s
  | None => false
  end.

Definition get (u : string) (cfg : option UserConfig) : M Outcome :=
  let* o := request axiosInstance "get" u Js.Undefined cfg in
  match o with
  | Resolved r => ret (Resolved r)
  | Rejected error =>
      if (bool_decide (code error = Some "ERR_NETWORK")
          || message_includes error "CORS"
          || message_includes error "blocked") && isProduction env
      then
        let* o2 := request fallbackAxiosInstance "get" u Js.Undefined cfg in
        match o2 with
        | Resolved r => ret (Resolved r)
        | Rejected fallbackError => ret (Rejected fallbackError)
        end
      else ret (Rejected error)
  end.

Definition post (u : string) (dat : Js.value) (cfg : option UserConfig)
  : M Outcome :=
  let* o := request axiosInstance "post" u dat cfg in
  match o with
  | Resolved r => ret (Resolved r)
  | Rejected error =>
      if (bool_decide (code error = Some "ERR_NETWORK")
          || message_includes error "CORS"
          || message_includes error "blocked") && isProduction env
      then
        let* o2 := request fallbackAxiosInstance "post" u dat cfg in
        match o2 with
        | Resolved fallbackResult => ret (Resolved fallbackResult)
        | Rejected fallbackError => ret (Rejected fallbackError)
        end
      else ret (Rejected error)
  end.

End Module_scope.

End Client.

(** ** The proxy server *)

Module Server.

Definition API_TARGET : string :=
  "https://mukkai-backend-api-f9dc2d5aad02.herokuapp.com".

Inductive HeaderValue : Type :=
| HStr (s : string)
| HNum (n : Z).

(** The incoming request after [express.json()] and
    [express.urlencoded()] have run: [body] is the parsed body. *)
Record Req : Type := mkReq {
  method : string;
  originalUrl : string;     (* full path, mount prefix included *)
  url : string;             (* path below the mount prefix *)
  req_headers : gmap string HeaderValue;
  body : Js.value
}.

(** The outgoing request to the upstream: its headers and the chunks
    written to it so far. *)
Record ProxyReq : Type := mkProxyReq {
  pr_headers : gmap string HeaderValue;
  pr_written : list string
}.

Inductive Body : Type :=
| JsonBody (v : Js.value)   (* sent with res.json *)
| RawBody (s : string).     (* piped from the upstream *)

Record Res : Type := mkRes {
  statusCode : Z;
  res_body : option Body
}.

Record Err : Type := mkErr { err_message : string }.

(** Header maps are keyed by the lower-case name, as Node keeps them. *)
Definition setHeader (p : ProxyReq) (k : string) (v : HeaderValue)
  : ProxyReq :=
  mkProxyReq (<[Js.toLowerCase k := v]> (pr_headers p)) (pr_written p).

Definition write (p : ProxyReq) (chunk : string) : ProxyReq :=
  mkProxyReq (pr_headers p) (pr_written p ++ [chunk]).

Definition res_status (r : Res) (n : Z) : Res := mkRes n (res_body r).

Definition res_json (r : Res) (v : Js.value) : Res :=
  mkRes (statusCode r) (Some (JsonBody v)).

(** [Buffer.byteLength] of a string held as its UTF-8 bytes. *)
Definition Buffer_byteLength (s : string) : Z :=
  Z.of_nat (String.length s).

(** *** Hooks of the [/api] route *)

Definition api_onProxyReq (proxyReq : ProxyReq) (req : Req) : ProxyReq :=
  if Js.truthy (body req) && String.eqb (method req) "POST" then
    setHeader proxyReq "Content-Type" (HStr "application/json")
  else proxyReq.

Definition api_onError (err : Err) (req : Req) (res : Res) : Res :=
  res_json (res_status res 500)
           (Js.Obj [("error", Js.Str "Proxy error")]).

Section Routes.

(** [JSON.stringify]. *)
Variable JSON_stringify : Js.value -> string.

(** *** Hooks of the [/open-api] route *)

Definition open_api_onProxyReq (proxyReq : ProxyReq) (req : Req)
  : ProxyReq :=
  if Js.truthy (body req) && String.eqb (method req) "POST" then
    let bodyData := JSON_stringify (body req) in
    let proxyReq := setHeader proxyReq "Content-Type"
                              (HStr "application/json") in
    let proxyReq := setHeader proxyReq "Content-Length"
                              (HNum (Buffer_byteLength bodyData)) in
    write proxyReq bodyData
  else proxyReq.

Definition open_api_onError (err : Err) (req : Req) (res : Res) : Res :=
  res_json (res_status res 500)
           (Js.Obj [("error", Js.Str "Proxy error");
                    ("message", Js.Str (err_message err))]).

(** *** The proxy middleware

    [createProxyMiddleware] comes from the http-proxy-middleware package.
    What the routes rely on: the outgoing request starts from the incoming
    headers, the [onProxyReq] hook edits it, it is forwarded to [target]
    once, and the upstream either answers (status and body are piped to
    the client) or fails (the [onError] hook builds the response).  The
    [onProxyRes] hooks only log. *)

Record Options : Type := mkOptions {
  target : string;
  changeOrigin : bool;
  secure : bool;
  onProxyReq : ProxyReq -> Req -> ProxyReq;
  onError : Err -> Req -> Res -> Res
}.

Inductive Upstream : Type :=
| Answered (st : Z) (b : string)
| Failed (err : Err).

Inductive ServerEvent : Type :=
| Forwarded (tgt : string) (req : Req) (p : ProxyReq).

(** How the upstream settles a forwarded request. *)
Variable upstream : string -> Req -> ProxyReq -> Upstream.

Definition createProxyMiddleware (opts : Options) (req : Req) (res : Res)
  : Res * list ServerEvent :=
  let p := onProxyReq opts (mkProxyReq (req_headers req) []) req in
  let ev := Forwarded (target opts) req p in
  match upstream (target opts) req p with
  | Answered st b => (mkRes st (Some (RawBody b)), [ev])
  | Failed err => (onError opts err req res, [ev])
  end.

(** [app.use('/api', ...)] and [app.use('/open-api', ...)]. *)
Definition api_route : Req -> Res -> Res * list ServerEvent :=
  createProxyMiddleware
    {| target := API_TARGET; changeOrigin := true; secure := true;
       onProxyReq := api_onProxyReq; onError := api_onError |}.

Definition open_api_route : Req -> Res -> Res * list ServerEvent :=
  createProxyMiddleware
    {| target := API_TARGET; changeOrigin := true; secure := true;
       onProxyReq := open_api_onProxyReq; onError := open_api_onError |}.

End Routes.

(** *** Listening port and liveness route *)

(** [process.env.PORT || 3000]. *)
Definition PORT (env_PORT : option string) : Js.value :=
  match env_PORT with
  | Some s => if Js.truthy (Js.Str s) then Js.Str s else Js.Num 3000
  | None => Js.Num 3000
  end.

(** The handler of [app.get('/health')]; [now] is
    [new Date().toISOString()] and [distExists] the result of
    [fs.existsSync] on the [dist] directory. *)
Definition health (env_PORT env_NODE_ENV : option string) (now : string)
    (distExists : bool) (req : Req) (res : Res) : Res :=
  res_json res
    (Js.Obj [("status", Js.Str "healthy");
             ("timestamp", Js.Str now);
             ("port", PORT env_PORT);
             ("env", match env_NODE_ENV with
                     | Some s => Js.Str s
                     | None => Js.Undefined
                     end);
             ("distExists", Js.Bool distExists)]).

End Server.

(** ** Vocabulary of the properties *)

Import Client.
Local Open Scope client_scope.
Local Open Scope list_scope.

(** The credential the request hook reads: the first of the two named
    entries that holds a non-empty string. *)
Definition present (st : gmap string string) (k : string) : option string :=
  match st !! k with
  | Some t => if decide (t = "") then None else Some t
  | None => None
  end.

Definition first_credential (st : gmap string string) : option string :=
  match present st "accessToken" with
  | Some t => Some t
  | None => present st "storeUserAccessToken"
  end.

(** The request configuration after the hook ran against storage [st]. *)
Definition attach (st : gmap string string) (c : ReqConfig) : ReqConfig :=
  match first_credential st with
  | Some t => set_header c "authorization-token" t
  | None => c
  end.

(** The world right after [instance.get]/[instance.post] was entered. *)
Definition called (i : ClientId) (m u : string) (d : Js.value)
    (cfg : option UserConfig) (w : World) : World :=
  mkWorld (storage w) (href w) (trace w ++ [ECall i m u d cfg]).

(** The world after the 401 branch of the response hook. *)
Definition logged_out (w : World) : World :=
  mkWorld (delete "refreshToken" (delete "accessToken" (storage w)))
          "/auth/login"
          (trace w ++ [ERemoveItem "accessToken";
                       ERemoveItem "refreshToken";
                       ENavigate "/auth/login"]).

(** The world after the 401 branch of the response hook where there is
    no [window]: the entries are removed, nothing is navigated. *)
Definition tokens_removed (w : World) : World :=
  mkWorld (delete "refreshToken" (delete "accessToken" (storage w)))
          (href w)
          (trace w ++ [ERemoveItem "accessToken";
                       ERemoveItem "refreshToken"]).

(** The response hook takes its 401 branch on this error. *)
Definition hook_fires (e : AxiosError) : bool :=
  status_is e 401 && bool_decide (is_Some (config e)).

(** The error the primary client rejects with when the network answers
    with [e]. *)
Definition rejected_as (env : Env) (e : AxiosError) : AxiosError :=
  if hook_fires e then
    match window_hostname env with
    | Some _ => e
    | None => ReferenceError_window
    end
  else e.

(** The world the response hook leaves when the network answers with
    [e]. *)
Definition after_rejection (env : Env) (e : AxiosError) (w : World)
  : World :=
  if hook_fires e then
    match window_hostname env with
    | Some _ => logged_out w
    | None => tokens_removed w
    end
  else w.

(** A network-layer failure, as the wrapper recognises it. *)
Definition network_failure (e : AxiosError) : Prop :=
  code e = Some "ERR_NETWORK" ∨
  ∃ m, message e = Some m ∧
       (Js.includes m "CORS" = true ∨ Js.includes m "blocked" = true).

Definition retry_condition (env : Env) (e : AxiosError) : Prop :=
  isProduction env = true ∧ network_failure e.

Definition is_fallback_call (ev : Event) : bool :=
  match ev with
  | ECall Fallback _ _ _ _ => true
  | _ => false
  end.

(** The calls made on the fallback client, oldest first. *)
Definition fallback_calls (t : list Event) : list Event :=
  List.filter is_fallback_call t.

(** Production mode read off [NODE_ENV] alone. *)
Definition production_by_NODE_ENV (env : Env) : Prop :=
  isProduction env = true ↔ NODE_ENV env = Some "production".

(** The two operations of [axiosWithFallback], handled uniformly. *)
Inductive Op : Type :=
| Get
| Post (d : Js.value).

Definition op_method (op : Op) : string :=
  match op with Get => "get" | Post _ => "post" end.

Definition op_data (op : Op) : Js.value :=
  match op with Get => Js.Undefined | Post d => d end.

(** [axiosWithFallback.get(u, cfg)] or [axiosWithFallback.post(u, d, cfg)]. *)
Definition call (env : Env) (net : World -> ReqConfig -> Outcome)
    (op : Op) (u : string) (cfg : option UserConfig) : M Outcome :=
  match op with
  | Get => get env net u cfg
  | Post d => post env net u d cfg
  end.

(** The same operation on one client: [i.get(u, cfg)] or
    [i.post(u, d, cfg)]. *)
Definition attempt (net : World -> ReqConfig -> Outcome) (i : Instance)
    (op : Op) (u : string) (cfg : option UserConfig) : M Outcome :=
  request net i (op_method op) u (op_data op) cfg.

(** What the network answers to a call made on client [i] in world [w]. *)
Definition answer (net : World -> ReqConfig -> Outcome) (i : Instance)
    (m u : string) (d : Js.value) (cfg : option UserConfig) (w : World)
  : Outcome :=
  let (c0, w0) := prepare i m u d cfg w in net w0 c0.

(** The answer is not an error carrying a 401 response. *)
Definition no_401 (o : Outcome) : Prop :=
  match o with
  | Resolved _ => True
  | Rejected e => status_is e 401 = false
  end.

(** A response of any kind came back. *)
Definition response_received (o : Outcome) : Prop :=
  match o with
  | Resolved _ => True
  | Rejected e => is_Some (response e)
  end.

(** The outcomes the connectivity probe counts as connected. *)
Definition probe_connected (o : Outcome) : Prop :=
  match o with
  | Resolved _ => True
  | Rejected e =>
      ∃ r, response e = Some r ∧
           (result_code_2003 (resp_data r) = true ∨
            (status r = 400 ∧
             Js.truthy (Js.prop (resp_data r) "result") = true) ∨
            status r = 401 ∨
            status r = 403)
  end.

(** What the network answers to the connectivity probe. *)
Definition probe_answer (env : Env) (net : World -> ReqConfig -> Outcome)
    (w : World) : Outcome :=
  answer net (axiosInstance env) "get" "/health" Js.Undefined
         (Some (mkUserConfig ∅ (Some 5000))) w.

(** *** Sample inputs *)

Definition env_prod : Env := mkEnv (Some "production") None.
Definition env_dev : Env := mkEnv (Some "development") (Some "localhost").
Definition env_heroku : Env :=
  mkEnv (Some "development") (Some "mukkai-delivery.herokuapp.com").

Definition w_init : World :=
  mkWorld {[ "accessToken" := "user-token";
             "refreshToken" := "refresh-token";
             "storeUserAccessToken" := "owner-token" ]}
          "/stores" [].

Definition network_error (c : ReqConfig) : AxiosError :=
  mkError (Some "ERR_NETWORK") (Some "Network Error") (Some c) None.

Definition http_error (st : Z) (txt : string) (c : ReqConfig)
  : AxiosError :=
  mkError (Some "ERR_BAD_RESPONSE") (Some "Request failed") (Some c)
    (Some (mkResponse st txt
       (Js.Obj [("result",
                 Js.Obj [("result_code", Js.Num st);
                         ("result_message", Js.Str txt);
                         ("result_description", Js.Str txt)]);
                ("body", Js.Null)]))).

Definition ok_response : Response :=
  mkResponse 200 "OK" (Js.Obj [("body", Js.Arr [])]).

(** The same-origin proxy is unreachable, the backend answers directly. *)
Definition net_proxy_down (w : World) (c : ReqConfig) : Outcome :=
  if String.eqb (baseURL c) "" then Rejected (network_error c)
  else Resolved ok_response.

(** Nothing is reachable. *)
Definition net_down (w : World) (c : ReqConfig) : Outcome :=
  Rejected (network_error c).

(** Every request is answered with the given error status. *)
Definition net_status (st : Z) (txt : string) (w : World) (c : ReqConfig)
  : Outcome :=
  Rejected (http_error st txt c).

Definition net_ok (w : World) (c : ReqConfig) : Outcome :=
  Resolved ok_response.

(** The same-origin proxy is unreachable and the backend, reached
    directly, answers 401. *)
Definition net_backend_401 (w : World) (c : ReqConfig) : Outcome :=
  if String.eqb (baseURL c) "" then Rejected (network_error c)
  else Rejected (http_error 401 "Unauthorized" c).

(** A client posts an order; the body was sent pretty-printed, 44 bytes
    long, and parsed by [express.json()]. *)
Definition order_request (prefix : string) : Server.Req :=
  Server.mkReq "POST" (String.append prefix "/orders") "/orders"
    {[ "content-type" := Server.HStr "application/json";
       "content-length" := Server.HStr "44" ]}
    (Js.Obj [("storeId", Js.Num 1); ("menuIds", Js.Arr [Js.Num 3; Js.Num 7])]).

Definition fresh_res : Server.Res := Server.mkRes 200 None.

(** The backend refuses connections. *)
Definition upstream_down (tgt : string) (req : Server.Req)
    (p : Server.ProxyReq) : Server.Upstream :=
  Server.Failed (Server.mkErr "connect ECONNREFUSED").

(** The calls made on the primary client, oldest first. *)
Definition is_primary_call (ev : Event) : bool :=
  match ev with
  | ECall Primary _ _ _ _ => true
  | _ => false
  end.

Definition primary_calls (t : list Event) : list Event :=
  List.filter is_primary_call t.

(** The configuration of the connectivity probe. *)
Definition probe_config : option UserConfig :=
  Some (mkUserConfig ∅ (Some 5000)).

(** Total byte length of the chunks written to an outgoing request. *)
Definition written_bytes (p : Server.ProxyReq) : Z :=
  fold_right (fun chunk n => Server.Buffer_byteLength chunk + n) 0
             (Server.pr_written p).

(** A listing request, as the proxy sees it below its mount point. *)
Definition list_request (prefix : string) : Server.Req :=
  Server.mkReq "GET" (String.append prefix "/stores") "/stores"
    {[ "accept" := Server.HStr "application/json" ]}
    (Js.Obj []).

(** The configuration a call on the primary client dispatches from
    [w_init]. *)
Definition sample_config (env : Env) (m u : string) (d : Js.value)
  : ReqConfig :=
  attach (storage w_init)
         (mergeConfig (json_defaults (API_BASE_URL env)) m u d None).

(** ** Properties of the client *)

Section Client_facts.

Variable env : Env.
Variable net : World -> ReqConfig -> Outcome.

Lemma request_handler_spec name config w :
  request_handler name config w =
    (match first_credential (storage w) with
     | Some t => set_header config "authorization-token" t
     | None => config
     end, w).
Proof.
  unfold request_handler, first_credential, present, bind, getItem, ret.
  simpl.
  destruct (storage w !! "accessToken") as [a|]; simpl;
    [destruct (String.eqb_spec a ""), (decide (a = "")); simpl;
       try congruence; try reflexivity;
       try (destruct (String.eqb_spec a ""); simpl; congruence)|];
    (destruct (storage w !! "storeUserAccessToken") as [s|]; simpl;
       [|reflexivity];
     destruct (String.eqb_spec s ""), (decide (s = "")); simpl;
       congruence || reflexivity).
Qed.

Lemma prepare_primary m u d cfg w :
  prepare (axiosInstance env) m u d cfg w =
    (attach (storage w)
       (mergeConfig (json_defaults (API_BASE_URL env)) m u d cfg),
     called Primary m u d cfg w).
Proof.
  unfold prepare, bind, emit; simpl.
  unfold bind. rewrite request_handler_spec. reflexivity.
Qed.

Lemma prepare_fallback m u d cfg w :
  prepare fallbackAxiosInstance m u d cfg w =
    (attach (storage w)
       (mergeConfig (json_defaults FALLBACK_API_BASE_URL) m u d cfg),
     called Fallback m u d cfg w).
Proof.
  unfold prepare, bind, emit; simpl.
  unfold bind. rewrite request_handler_spec. reflexivity.
Qed.

Lemma response_error_spec e w :
  response_error env e w =
    (Rejected (rejected_as env e), after_rejection env e w).
Proof.
  unfold response_error, rejected_as, after_rejection, hook_fires.
  destruct (status_is e 401 && bool_decide (is_Some (config e)));
    [|reflexivity].
  unfold bind, removeItem, set_location_href, ret, logged_out,
    tokens_removed; simpl.
  destruct (window_hostname env); simpl; rewrite <- !app_assoc; reflexivity.
Qed.

Lemma rejected_as_window e :
  is_Some (window_hostname env) → rejected_as env e = e.
Proof.
  intros [h Hh]. unfold rejected_as. rewrite Hh.
  destruct (hook_fires e); reflexivity.
Qed.

Lemma rejected_as_no_hook e : hook_fires e = false → rejected_as env e = e.
Proof. intros H. unfold rejected_as. rewrite H. reflexivity. Qed.

(** The thrown [ReferenceError] never meets the retry condition. *)
Lemma ReferenceError_not_retried : ¬ retry_condition env ReferenceError_window.
Proof.
  intros [_ [H|(m & Hm & [H|H])]]; [discriminate H| |];
    inversion Hm; subst m; vm_compute in H; discriminate H.
Qed.

Lemma request_primary m u d cfg w :
  request net (axiosInstance env) m u d cfg w =
    let (c0, w0) := prepare (axiosInstance env) m u d cfg w in
    match net w0 c0 with
    | Resolved r => (Resolved r, w0)
    | Rejected e => response_error env e w0
    end.
Proof.
  unfold request, bind at 1.
  destruct (prepare (axiosInstance env) m u d cfg w) as [c0 w0].
  unfold bind at 1, dispatch. simpl. unfold bind.
  destruct (net w0 c0) as [r|e]; simpl.
  - reflexivity.
  - destruct (response_error env e w0); reflexivity.
Qed.

Lemma request_fallback m u d cfg w :
  request net fallbackAxiosInstance m u d cfg w =
    let (c0, w0) := prepare fallbackAxiosInstance m u d cfg w in
    (net w0 c0, w0).
Proof.
  unfold request, bind at 1.
  destruct (prepare fallbackAxiosInstance m u d cfg w) as [c0 w0].
  reflexivity.
Qed.

Lemma retry_condition_bool e :
  (bool_decide (code e = Some "ERR_NETWORK")
   || message_includes e "CORS"
   || message_includes e "blocked") && isProduction env = true
  ↔ retry_condition env e.
Proof.
  unfold retry_condition, network_failure, message_includes.
  rewrite andb_true_iff, !orb_true_iff, bool_decide_eq_true.
  split.
  - intros [[[Hc|Hm]|Hm] Hp]; split; auto;
      destruct (message e) as [m|]; try discriminate; right; eauto.
  - intros [Hp [Hc|(m & Hm & [Hi|Hi])]]; split; auto; rewrite Hm; auto.
Qed.

Lemma fallback_calls_snoc t ev :
  fallback_calls (t ++ [ev]) =
    fallback_calls t ++ (if is_fallback_call ev then [ev] else []).
Proof. unfold fallback_calls. rewrite List.filter_app. reflexivity. Qed.

Lemma trace_request_primary m u d cfg w :
  fallback_calls (trace (snd (request net (axiosInstance env) m u d cfg w)))
  = fallback_calls (trace w).
Proof.
  rewrite request_primary, prepare_primary.
  destruct (net _ _) as [r|e]; simpl.
  - rewrite fallback_calls_snoc. simpl. apply app_nil_r.
  - rewrite response_error_spec. unfold after_rejection. simpl.
    destruct (hook_fires e); [destruct (window_hostname env)|]; simpl.
    + unfold fallback_calls. rewrite !List.filter_app. simpl.
      rewrite !app_nil_r. reflexivity.
    + unfold fallback_calls. rewrite !List.filter_app. simpl.
      rewrite !app_nil_r. reflexivity.
    + rewrite fallback_calls_snoc. simpl. apply app_nil_r.
Qed.

Lemma trace_request_fallback m u d cfg w :
  trace (snd (request net fallbackAxiosInstance m u d cfg w))
  = trace w ++ [ECall Fallback m u d cfg].
Proof. rewrite request_fallback, prepare_fallback. reflexivity. Qed.

(** How [get] and [post] continue once the primary attempt has settled. *)
Lemma get_resolved u cfg w r w1 :
  request net (axiosInstance env) "get" u Js.Undefined cfg w
    = (Resolved r, w1) →
  get env net u cfg w = (Resolved r, w1).
Proof. intros H. unfold get, bind. rewrite H. reflexivity. Qed.

Lemma get_retry u cfg w e w1 :
  request net (axiosInstance env) "get" u Js.Undefined cfg w
    = (Rejected e, w1) →
  retry_condition env e →
  get env net u cfg w
    = request net fallbackAxiosInstance "get" u Js.Undefined cfg w1.
Proof.
  intros H Hc. apply retry_condition_bool in Hc.
  unfold get, bind at 1. rewrite H, Hc. unfold bind.
  destruct (request net fallbackAxiosInstance _ _ _ _ w1) as [[?|?] ?];
    reflexivity.
Qed.

Lemma get_no_retry u cfg w e w1 :
  request net (axiosInstance env) "get" u Js.Undefined cfg w
    = (Rejected e, w1) →
  ¬ retry_condition env e →
  get env net u cfg w = (Rejected e, w1).
Proof.
  intros H Hc. rewrite <- retry_condition_bool in Hc.
  apply not_true_is_false in Hc.
  unfold get, bind. rewrite H, Hc. reflexivity.
Qed.

Lemma post_resolved u d cfg w r w1 :
  request net (axiosInstance env) "post" u d cfg w = (Resolved r, w1) →
  post env net u d cfg w = (Resolved r, w1).
Proof. intros H. unfold post, bind. rewrite H. reflexivity. Qed.

Lemma post_retry u d cfg w e w1 :
  request net (axiosInstance env) "post" u d cfg w = (Rejected e, w1) →
  retry_condition env e →
  post env net u d cfg w
    = request net fallbackAxiosInstance "post" u d cfg w1.
Proof.
  intros H Hc. apply retry_condition_bool in Hc.
  unfold post, bind at 1. rewrite H, Hc. unfold bind.
  destruct (request net fallbackAxiosInstance _ _ _ _ w1) as [[?|?] ?];
    reflexivity.
Qed.

Lemma post_no_retry u d cfg w e w1 :
  request net (axiosInstance env) "post" u d cfg w = (Rejected e, w1) →
  ¬ retry_condition env e →
  post env net u d cfg w = (Rejected e, w1).
Proof.
  intros H Hc. rewrite <- retry_condition_bool in Hc.
  apply not_true_is_false in Hc.
  unfold post, bind. rewrite H, Hc. reflexivity.
Qed.

Lemma request_primary_answer m u d cfg w :
  request net (axiosInstance env) m u d cfg w =
    match answer net (axiosInstance env) m u d cfg w with
    | Resolved r => (Resolved r, called Primary m u d cfg w)
    | Rejected e =>
        (Rejected (rejected_as env e),
         after_rejection env e (called Primary m u d cfg w))
    end.
Proof.
  rewrite request_primary. unfold answer. rewrite prepare_primary.
  destruct (net _ _); [reflexivity | apply response_error_spec].
Qed.

Lemma request_fallback_answer m u d cfg w :
  request net fallbackAxiosInstance m u d cfg w =
    (answer net fallbackAxiosInstance m u d cfg w,
     called Fallback m u d cfg w).
Proof.
  rewrite request_fallback. unfold answer. rewrite prepare_fallback.
  reflexivity.
Qed.

Lemma call_resolved op u cfg w r w1 :
  attempt net (axiosInstance env) op u cfg w = (Resolved r, w1) →
  call env net op u cfg w = (Resolved r, w1).
Proof. destruct op; [apply get_resolved | apply post_resolved]. Qed.

Lemma call_retry op u cfg w e w1 :
  attempt net (axiosInstance env) op u cfg w = (Rejected e, w1) →
  retry_condition env e →
  call env net op u cfg w = attempt net fallbackAxiosInstance op u cfg w1.
Proof. destruct op; [apply get_retry | apply post_retry]. Qed.

Lemma call_no_retry op u cfg w e w1 :
  attempt net (axiosInstance env) op u cfg w = (Rejected e, w1) →
  ¬ retry_condition env e →
  call env net op u cfg w = (Rejected e, w1).
Proof. destruct op; [apply get_no_retry | apply post_no_retry]. Qed.

Lemma retry_condition_dec e : retry_condition env e ∨ ¬ retry_condition env e.
Proof.
  rewrite <- retry_condition_bool.
  destruct (_ && _); [left | right]; congruence.
Qed.

(** C1: when the primary attempt of [get] or [post] fails, the fallback
    client is called (once, with the same arguments) exactly when the
    deployment is in production mode and the error is a network-layer
    failure ([ERR_NETWORK], or a message containing [CORS] or [blocked]);
    otherwise, and always outside production mode, the original error is
    the result and the fallback client is not called. *)
Theorem fallback_iff_production_network_failure op u cfg w e w1 :
  attempt net (axiosInstance env) op u cfg w = (Rejected e, w1) →
  let out := call env net op u cfg w in
  (retry_condition env e →
     out = attempt net fallbackAxiosInstance op u cfg w1 ∧
     fallback_calls (trace (snd out)) =
       fallback_calls (trace w)
         ++ [ECall Fallback (op_method op) u (op_data op) cfg]) ∧
  (¬ retry_condition env e →
     out = (Rejected e, w1) ∧
     fallback_calls (trace (snd out)) = fallback_calls (trace w)) ∧
  (isProduction env = false →
     out = (Rejected e, w1) ∧
     fallback_calls (trace (snd out)) = fallback_calls (trace w)).
Proof.
  intros Hp out.
  assert (Hw1 : fallback_calls (trace w1) = fallback_calls (trace w)).
  { pose proof (trace_request_primary (op_method op) u (op_data op) cfg w)
      as Ht.
    unfold attempt in Hp. rewrite Hp in Ht. exact Ht. }
  assert (Hno : ¬ retry_condition env e →
                out = (Rejected e, w1) ∧
                fallback_calls (trace (snd out)) = fallback_calls (trace w)).
  { intros Hc. subst out. rewrite (call_no_retry _ _ _ _ _ _ Hp Hc).
    split; [reflexivity | exact Hw1]. }
  split; [|split].
  - intros Hc. subst out. rewrite (call_retry _ _ _ _ _ _ Hp Hc).
    split; [reflexivity|].
    unfold attempt. rewrite trace_request_fallback, fallback_calls_snoc.
    simpl. rewrite Hw1. reflexivity.
  - exact Hno.
  - intros Hd. apply Hno. intros [Hprod _]. congruence.
Qed.

(** C5: when the retry condition holds and the fallback attempt fails
    too, the caller gets the fallback's error.  No other error is
    dropped: a primary error that is not retried is the caller's error,
    a failure the network reports is never turned into a success by
    either client, and [get]/[post] succeed only with the response of the
    attempt that succeeded. *)
Theorem fallback_error_supersedes op u cfg w :
  (∀ e w1 e2 w2,
     attempt net (axiosInstance env) op u cfg w = (Rejected e, w1) →
     retry_condition env e →
     attempt net fallbackAxiosInstance op u cfg w1 = (Rejected e2, w2) →
     call env net op u cfg w = (Rejected e2, w2)) ∧
  (∀ e w1,
     attempt net (axiosInstance env) op u cfg w = (Rejected e, w1) →
     ¬ retry_condition env e →
     call env net op u cfg w = (Rejected e, w1)) ∧
  (∀ r w',
     call env net op u cfg w = (Resolved r, w') →
     attempt net (axiosInstance env) op u cfg w = (Resolved r, w') ∨
     ∃ e w1,
       attempt net (axiosInstance env) op u cfg w = (Rejected e, w1) ∧
       retry_condition env e ∧
       attempt net fallbackAxiosInstance op u cfg w1 = (Resolved r, w')) ∧
  (∀ e,
     answer net (axiosInstance env) (op_method op) u (op_data op) cfg w
       = Rejected e →
     fst (attempt net (axiosInstance env) op u cfg w)
       = Rejected (rejected_as env e) ∧
     (is_Some (window_hostname env) ∨ hook_fires e = false →
      rejected_as env e = e)) ∧
  (∀ w1,
     fst (attempt net fallbackAxiosInstance op u cfg w1) =
       answer net fallbackAxiosInstance (op_method op) u (op_data op) cfg w1).
Proof.
  split; [|split; [|split; [|split]]].
  - intros e w1 e2 w2 Hp Hc Hf.
    rewrite (call_retry _ _ _ _ _ _ Hp Hc). exact Hf.
  - intros e w1 Hp Hc. apply (call_no_retry _ _ _ _ _ _ Hp Hc).
  - intros r w' Hcall.
    destruct (attempt net (axiosInstance env) op u cfg w)
      as [[r1|e1] w1] eqn:Hp.
    + left. rewrite (call_resolved _ _ _ _ _ _ Hp) in Hcall. exact Hcall.
    + right. destruct (retry_condition_dec e1) as [Hc|Hc].
      * exists e1, w1. rewrite (call_retry _ _ _ _ _ _ Hp Hc) in Hcall.
        auto.
      * rewrite (call_no_retry _ _ _ _ _ _ Hp Hc) in Hcall. discriminate.
  - intros e Ha. split.
    + unfold attempt. rewrite request_primary_answer, Ha. reflexivity.
    + intros [Hw|Hh];
        [apply rejected_as_window, Hw | apply rejected_as_no_hook, Hh].
  - intros w1. unfold attempt. rewrite request_fallback_answer. reflexivity.
Qed.

(** C3, as the code has it: in a browser, when a request on the primary
    client is answered with status 401, [accessToken] and [refreshToken]
    are each removed from storage once and the page is sent to
    [/auth/login]; the caller then gets the original error.
    [storeUserAccessToken] stays.  The fallback client has no such hook. *)
Theorem unauthorized_clears_credentials_and_redirects m u d cfg w e r :
  is_Some (window_hostname env) →
  answer net (axiosInstance env) m u d cfg w = Rejected e →
  response e = Some r →
  status r = 401 →
  is_Some (config e) →
  let out := request net (axiosInstance env) m u d cfg w in
  fst out = Rejected e ∧
  storage (snd out) =
    delete "refreshToken" (delete "accessToken" (storage w)) ∧
  href (snd out) = "/auth/login" ∧
  trace (snd out) =
    trace w ++ [ECall Primary m u d cfg;
                ERemoveItem "accessToken";
                ERemoveItem "refreshToken";
                ENavigate "/auth/login"] ∧
  storage (snd out) !! "storeUserAccessToken"
    = storage w !! "storeUserAccessToken".
Proof.
  intros Hwin Ha Hr Hs Hc out. subst out.
  rewrite request_primary_answer, Ha.
  rewrite (rejected_as_window _ Hwin).
  assert (Hb : hook_fires e = true).
  { unfold hook_fires, status_is. rewrite Hr, Hs. simpl.
    apply bool_decide_eq_true_2, Hc. }
  destruct Hwin as [h Hh].
  unfold after_rejection. rewrite Hb, Hh. simpl. repeat split.
  - rewrite <- app_assoc. reflexivity.
  - rewrite !lookup_delete_ne by discriminate. reflexivity.
Qed.

(** C6: the 401 hook sits on the primary client only.  A request on the
    fallback client that is answered with status 401 leaves storage and
    location as they were, issues no navigation, and hands the error to
    the caller unchanged. *)
Theorem fallback_unauthorized_untouched m u d cfg w e :
  answer net fallbackAxiosInstance m u d cfg w = Rejected e →
  status_is e 401 = true →
  let out := request net fallbackAxiosInstance m u d cfg w in
  response_interceptors fallbackAxiosInstance = [] ∧
  response_interceptors (axiosInstance env)
    = [(response_ok, response_error env)] ∧
  fst out = Rejected e ∧
  storage (snd out) = storage w ∧
  href (snd out) = href w ∧
  trace (snd out) = trace w ++ [ECall Fallback m u d cfg].
Proof.
  intros Ha _ out. subst out.
  rewrite request_fallback_answer, Ha. simpl. repeat split.
Qed.

(** C7: on either client the request hook attaches at most one
    credential: [accessToken] when it holds a non-empty string, else
    [storeUserAccessToken] when that holds one; the value is written as is
    under [authorization-token], and when neither is there the
    configuration is left as it was.  Storage is only read. *)
Theorem request_hook_attaches_first_credential name config m u d cfg w :
  request_interceptors (axiosInstance env) = [request_handler "PROXY"] ∧
  request_interceptors fallbackAxiosInstance = [request_handler "DIRECT"] ∧
  request_handler name config w =
    (match first_credential (storage w) with
     | Some t => set_header config "authorization-token" t
     | None => config
     end, w) ∧
  first_credential (storage w) =
    match present (storage w) "accessToken" with
    | Some t => Some t
    | None => present (storage w) "storeUserAccessToken"
    end ∧
  headers (fst (prepare (axiosInstance env) m u d cfg w)) =
    match first_credential (storage w) with
    | Some t =>
        <["authorization-token" := t]>
          (headers (mergeConfig (json_defaults (API_BASE_URL env)) m u d cfg))
    | None =>
        headers (mergeConfig (json_defaults (API_BASE_URL env)) m u d cfg)
    end ∧
  headers (fst (prepare fallbackAxiosInstance m u d cfg w)) =
    match first_credential (storage w) with
    | Some t =>
        <["authorization-token" := t]>
          (headers (mergeConfig (json_defaults FALLBACK_API_BASE_URL)
                                m u d cfg))
    | None =>
        headers (mergeConfig (json_defaults FALLBACK_API_BASE_URL) m u d cfg)
    end.
Proof.
  repeat split.
  - apply request_handler_spec.
  - rewrite prepare_primary. unfold attach.
    destruct (first_credential (storage w)); reflexivity.
  - rewrite prepare_fallback. unfold attach.
    destruct (first_credential (storage w)); reflexivity.
Qed.

Lemma storage_request_primary m u d cfg w :
  no_401 (answer net (axiosInstance env) m u d cfg w) →
  storage (snd (request net (axiosInstance env) m u d cfg w)) = storage w.
Proof.
  rewrite request_primary_answer.
  destruct (answer _ _ _ _ _ _ _) as [r|e]; simpl; [reflexivity|].
  intros Hn. unfold after_rejection, hook_fires. rewrite Hn. reflexivity.
Qed.

Lemma storage_request_fallback m u d cfg w :
  storage (snd (request net fallbackAxiosInstance m u d cfg w)) = storage w.
Proof. rewrite request_fallback_answer. reflexivity. Qed.

Lemma storage_get u cfg w :
  no_401 (answer net (axiosInstance env) "get" u Js.Undefined cfg w) →
  storage (snd (get env net u cfg w)) = storage w.
Proof.
  intros Hn.
  pose proof (storage_request_primary _ _ _ _ _ Hn) as Hs.
  destruct (request net (axiosInstance env) "get" u Js.Undefined cfg w)
    as [[r|e] w1] eqn:Hp; simpl in Hs.
  - rewrite (get_resolved _ _ _ _ _ Hp). exact Hs.
  - destruct (retry_condition_dec e) as [Hc|Hc].
    + rewrite (get_retry _ _ _ _ _ Hp Hc), storage_request_fallback.
      exact Hs.
    + rewrite (get_no_retry _ _ _ _ _ Hp Hc). exact Hs.
Qed.

(** C8: two [get] calls in a row, neither of whose primary attempts is
    answered with 401, leave storage exactly as it was: the request path
    only reads the credential entries. *)
Theorem get_twice_preserves_storage u cfg w :
  let w1 := snd (get env net u cfg w) in
  let w2 := snd (get env net u cfg w1) in
  no_401 (answer net (axiosInstance env) "get" u Js.Undefined cfg w) →
  no_401 (answer net (axiosInstance env) "get" u Js.Undefined cfg w1) →
  storage w1 = storage w ∧ storage w2 = storage w.
Proof.
  intros w1 w2 H1 H2.
  assert (E1 : storage w1 = storage w) by (apply storage_get, H1).
  split; [exact E1|].
  subst w2. rewrite (storage_get _ _ _ H2). exact E1.
Qed.

Lemma testBackendConnection_fst w :
  fst (testBackendConnection env net w) =
    match probe_answer env net w with
    | Resolved _ => true
    | Rejected e =>
        match response (rejected_as env e) with
        | Some r =>
            result_code_2003 (resp_data r)
            || (Z.eqb (status r) 400
                && Js.truthy (Js.prop (resp_data r) "result"))
            || Z.eqb (status r) 401
            || Z.eqb (status r) 403
        | None => false
        end
    end.
Proof.
  unfold testBackendConnection, probe_answer, bind.
  rewrite request_primary_answer.
  destruct (answer _ _ _ _ _ _ _) as [r|e]; simpl.
  - destruct (result_code_2003 (resp_data r)); reflexivity.
  - unfold status_is.
    destruct (response (rejected_as env e)) as [r|]; [|reflexivity].
    destruct (result_code_2003 (resp_data r)); [reflexivity|].
    destruct (Z.eqb (status r) 400 &&
              Js.truthy (Js.prop (resp_data r) "result"));
      [reflexivity|].
    destruct (Z.eqb (status r) 401 || Z.eqb (status r) 403) eqn:E;
      simpl; rewrite E; reflexivity.
Qed.

(** C2, as the code has it: in a browser the probe reports connected
    when the request succeeds, or fails with a response whose body carries
    result code 2003, or with status 400 and a body holding [result], or
    with status 401 or 403; every other outcome reports not connected,
    among them every outcome without a response. *)
Theorem probe_connected_iff w :
  is_Some (window_hostname env) →
  (fst (testBackendConnection env net w) = true
   ↔ probe_connected (probe_answer env net w)) ∧
  (¬ response_received (probe_answer env net w) →
   fst (testBackendConnection env net w) = false).
Proof.
  intros Hwin. rewrite testBackendConnection_fst.
  destruct (probe_answer env net w) as [r|e]; simpl; [tauto|].
  rewrite (rejected_as_window _ Hwin).
  destruct (response e) as [r|]; simpl.
  - split; [|intros H; exfalso; apply H; eauto].
    rewrite !orb_true_iff, andb_true_iff, !Z.eqb_eq.
    split.
    + intros H. exists r. tauto.
    + intros (r' & Hr & H). inversion Hr; subst r'. tauto.
  - split; [|reflexivity].
    split; [discriminate|]. intros (r & Hr & _). discriminate.
Qed.

(** C9, as the code has it: production mode holds when [NODE_ENV] is
    [production], and also when the page is served from a host whose name
    contains [herokuapp.com]; the primary base URL is empty in production
    mode and the absolute backend origin otherwise. *)
Theorem production_mode_and_base_url :
  (isProduction env = true ↔
     NODE_ENV env = Some "production" ∨
     ∃ h, window_hostname env = Some h ∧
          Js.includes h "herokuapp.com" = true) ∧
  API_BASE_URL env =
    (if isProduction env then "" else FALLBACK_API_BASE_URL) ∧
  d_baseURL (defaults (axiosInstance env)) = API_BASE_URL env ∧
  d_baseURL (defaults fallbackAxiosInstance) = FALLBACK_API_BASE_URL.
Proof.
  split; [|repeat split].
  unfold isProduction. rewrite orb_true_iff, bool_decide_eq_true.
  split.
  - intros [H|H]; [left; exact H|right].
    destruct (window_hostname env) as [h|]; [eauto | discriminate].
  - intros [H|(h & Hh & Hi)]; [left; exact H|right].
    rewrite Hh. exact Hi.
Qed.

End Client_facts.

(** ** Properties of the server *)

Import Server.

Section Server_facts.

Variable JSON_stringify : Js.value -> string.
Variable upstream : string -> Req -> ProxyReq -> Upstream.

Lemma api_onProxyReq_leaves_body p req :
  pr_written (api_onProxyReq p req) = pr_written p ∧
  pr_headers (api_onProxyReq p req) !! "content-length"
    = pr_headers p !! "content-length".
Proof.
  unfold api_onProxyReq.
  destruct (Js.truthy (body req) && String.eqb (method req) "POST");
    simpl; split; try reflexivity.
  apply lookup_insert_ne. vm_compute. discriminate.
Qed.

Lemma open_api_onProxyReq_post p req :
  Js.truthy (body req) = true →
  method req = "POST" →
  pr_written (open_api_onProxyReq JSON_stringify p req)
    = pr_written p ++ [JSON_stringify (body req)] ∧
  pr_headers (open_api_onProxyReq JSON_stringify p req) !! "content-length"
    = Some (HNum (Buffer_byteLength (JSON_stringify (body req)))).
Proof.
  intros Hb Hm. unfold open_api_onProxyReq. rewrite Hb, Hm. simpl.
  split; [reflexivity|]. apply lookup_insert_eq.
Qed.

Lemma onError_total err req res :
  api_onError err req res =
    mkRes 500 (Some (JsonBody (Js.Obj [("error", Js.Str "Proxy error")]))) ∧
  open_api_onError err req res =
    mkRes 500 (Some (JsonBody
      (Js.Obj [("error", Js.Str "Proxy error");
               ("message", Js.Str (err_message err))]))).
Proof. split; reflexivity. Qed.

(** C10: when forwarding fails on either proxy route, the request was
    forwarded once, the client is answered with status 500 and a JSON
    error payload, and the route returns normally. *)
Theorem proxy_failure_answers_500 req res err :
  (upstream API_TARGET req
     (api_onProxyReq (mkProxyReq (req_headers req) []) req) = Failed err →
   api_route upstream req res =
     (mkRes 500 (Some (JsonBody (Js.Obj [("error", Js.Str "Proxy error")]))),
      [Forwarded API_TARGET req
         (api_onProxyReq (mkProxyReq (req_headers req) []) req)])) ∧
  (upstream API_TARGET req
     (open_api_onProxyReq JSON_stringify
        (mkProxyReq (req_headers req) []) req) = Failed err →
   open_api_route JSON_stringify upstream req res =
     (mkRes 500 (Some (JsonBody
        (Js.Obj [("error", Js.Str "Proxy error");
                 ("message", Js.Str (err_message err))]))),
      [Forwarded API_TARGET req
         (open_api_onProxyReq JSON_stringify
            (mkProxyReq (req_headers req) []) req)])).
Proof.
  split; intros H.
  - unfold api_route, createProxyMiddleware. simpl. rewrite H. reflexivity.
  - unfold open_api_route, createProxyMiddleware. simpl. rewrite H.
    reflexivity.
Qed.

End Server_facts.

(** C4 at [POST /api/orders]: the [/api] hook sets the content type and
    nothing else, so the outgoing request keeps the incoming
    [content-length] and no body is written to it; the [/open-api] hook,
    given the same request, writes the re-serialized body and sets
    [content-length] to its byte length. *)
Theorem api_post_body_not_reserialized :
  let req := order_request "/api" in
  let p0 := mkProxyReq (req_headers req) [] in
  pr_written (api_onProxyReq p0 req) = [] ∧
  pr_headers (api_onProxyReq p0 req) !! "content-length" = Some (HStr "44") ∧
  Buffer_byteLength (Js.stringify (body req)) = 29 ∧
  pr_written (open_api_onProxyReq Js.stringify p0 req)
    = [Js.stringify (body req)] ∧
  pr_headers (open_api_onProxyReq Js.stringify p0 req) !! "content-length"
    = Some (HNum 29).
Proof. vm_compute. repeat split. Qed.

(** ** The properties at sample inputs *)

Lemma fallback_iff_production_network_failure_witness :
  let c := attach (storage w_init)
             (mergeConfig (json_defaults "") "get" "/api/stores"
                          Js.Undefined None) in
  let w1 := called Primary "get" "/api/stores" Js.Undefined None w_init in
  attempt net_proxy_down (axiosInstance env_prod) Get "/api/stores" None
          w_init = (Rejected (network_error c), w1) ∧
  retry_condition env_prod (network_error c) ∧
  fallback_calls
    (trace (snd (call env_prod net_proxy_down Get "/api/stores" None w_init)))
  = [ECall Fallback "get" "/api/stores" Js.Undefined None].
Proof.
  intros c w1.
  assert (Hp : attempt net_proxy_down (axiosInstance env_prod) Get
                 "/api/stores" None w_init = (Rejected (network_error c), w1))
    by (vm_compute; reflexivity).
  assert (Hc : retry_condition env_prod (network_error c))
    by (split; [reflexivity | left; reflexivity]).
  split; [exact Hp | split; [exact Hc|]].
  destruct (fallback_iff_production_network_failure env_prod net_proxy_down
              Get "/api/stores" None w_init _ _ Hp) as [H _].
  destruct (H Hc) as [_ Ht]. exact Ht.
Defined.

Lemma fallback_error_supersedes_witness :
  let d := Js.Obj [("storeId", Js.Num 1)] in
  let c1 := attach (storage w_init)
              (mergeConfig (json_defaults "") "post" "/api/orders" d None) in
  let c2 := attach (storage w_init)
              (mergeConfig (json_defaults FALLBACK_API_BASE_URL) "post"
                           "/api/orders" d None) in
  let w1 := called Primary "post" "/api/orders" d None w_init in
  let w2 := called Fallback "post" "/api/orders" d None w1 in
  attempt net_down (axiosInstance env_prod) (Post d) "/api/orders" None w_init
    = (Rejected (network_error c1), w1) ∧
  retry_condition env_prod (network_error c1) ∧
  attempt net_down fallbackAxiosInstance (Post d) "/api/orders" None w1
    = (Rejected (network_error c2), w2) ∧
  call env_prod net_down (Post d) "/api/orders" None w_init
    = (Rejected (network_error c2), w2).
Proof.
  intros d c1 c2 w1 w2.
  assert (Hp : attempt net_down (axiosInstance env_prod) (Post d)
                 "/api/orders" None w_init
               = (Rejected (network_error c1), w1))
    by (vm_compute; reflexivity).
  assert (Hc : retry_condition env_prod (network_error c1))
    by (split; [reflexivity | left; reflexivity]).
  assert (Hf : attempt net_down fallbackAxiosInstance (Post d)
                 "/api/orders" None w1
               = (Rejected (network_error c2), w2))
    by (vm_compute; reflexivity).
  repeat (split; [assumption|]).
  exact (proj1 (fallback_error_supersedes env_prod net_down (Post d)
                  "/api/orders" None w_init) _ _ _ _ Hp Hc Hf).
Defined.

Lemma unauthorized_clears_credentials_and_redirects_witness :
  let out := request (net_status 401 "Unauthorized")
               (axiosInstance env_heroku)
               "get" "/api/user/me" Js.Undefined None w_init in
  is_Some (window_hostname env_heroku) ∧
  fst out =
    Rejected (http_error 401 "Unauthorized"
                (sample_config env_heroku "get" "/api/user/me"
                               Js.Undefined)) ∧
  storage (snd out) = {[ "storeUserAccessToken" := "owner-token" ]} ∧
  href (snd out) = "/auth/login" ∧
  trace (snd out) =
    [ECall Primary "get" "/api/user/me" Js.Undefined None;
     ERemoveItem "accessToken";
     ERemoveItem "refreshToken";
     ENavigate "/auth/login"].
Proof.
  intros out.
  assert (Hwin : is_Some (window_hostname env_heroku))
    by (eexists; reflexivity).
  destruct (unauthorized_clears_credentials_and_redirects env_heroku
              (net_status 401 "Unauthorized") "get" "/api/user/me"
              Js.Undefined None w_init
              (http_error 401 "Unauthorized"
                 (sample_config env_heroku "get" "/api/user/me"
                                Js.Undefined))
              (mkResponse 401 "Unauthorized"
                 (Js.Obj [("result",
                           Js.Obj [("result_code", Js.Num 401);
                                   ("result_message", Js.Str "Unauthorized");
                                   ("result_description",
                                    Js.Str "Unauthorized")]);
                          ("body", Js.Null)])) Hwin)
    as (Hf & Hs & Hh & Ht & _).
  - vm_compute; reflexivity.
  - reflexivity.
  - reflexivity.
  - eexists; reflexivity.
  - subst out. split; [exact Hwin|]. split; [exact Hf|].
    split; [|split; [exact Hh | exact Ht]].
    etransitivity; [exact Hs | vm_compute; reflexivity].
Defined.

(** C3 as the spec words it fails: in a browser in production mode the
    proxy is unreachable and the backend, reached through the fallback
    client, answers 401; the caller gets that error while both entries
    stay in storage and the page stays where it is. *)
Lemma fallback_401_keeps_credentials :
  let out := call env_heroku net_backend_401 Get "/api/user/me" None w_init in
  (∃ e r, fst out = Rejected e ∧ response e = Some r ∧ status r = 401) ∧
  storage (snd out) !! "accessToken" = Some "user-token" ∧
  storage (snd out) !! "refreshToken" = Some "refresh-token" ∧
  href (snd out) = "/stores" ∧
  trace (snd out) =
    [ECall Primary "get" "/api/user/me" Js.Undefined None;
     ECall Fallback "get" "/api/user/me" Js.Undefined None].
Proof.
  split; [|vm_compute; repeat split].
  eexists. eexists. split; [vm_compute; reflexivity|]. split; reflexivity.
Qed.

Lemma fallback_unauthorized_untouched_witness :
  let out := request (net_status 401 "Unauthorized") fallbackAxiosInstance
               "get" "/api/user/me" Js.Undefined None w_init in
  status_is
    (http_error 401 "Unauthorized"
       (attach (storage w_init)
          (mergeConfig (json_defaults FALLBACK_API_BASE_URL) "get"
                       "/api/user/me" Js.Undefined None))) 401 = true ∧
  storage (snd out) = storage w_init ∧
  href (snd out) = "/stores" ∧
  trace (snd out) = [ECall Fallback "get" "/api/user/me" Js.Undefined None].
Proof.
  intros out.
  destruct (fallback_unauthorized_untouched env_prod
              (net_status 401 "Unauthorized") "get" "/api/user/me"
              Js.Undefined None w_init
              (http_error 401 "Unauthorized"
                 (attach (storage w_init)
                    (mergeConfig (json_defaults FALLBACK_API_BASE_URL) "get"
                                 "/api/user/me" Js.Undefined None))))
    as (_ & _ & _ & Hs & Hh & Ht).
  - vm_compute; reflexivity.
  - reflexivity.
  - split; [reflexivity|]. split; [exact Hs|]. split; [exact Hh | exact Ht].
Defined.

Lemma get_twice_preserves_storage_witness :
  let w1 := snd (get env_dev net_ok "/api/stores" None w_init) in
  let w2 := snd (get env_dev net_ok "/api/stores" None w1) in
  storage w1 = storage w_init ∧ storage w2 = storage w_init.
Proof.
  apply (get_twice_preserves_storage env_dev net_ok "/api/stores" None w_init);
    vm_compute; exact I.
Defined.

Lemma probe_connected_iff_witness :
  is_Some (window_hostname env_heroku) ∧
  ¬ response_received (probe_answer env_heroku net_down w_init) ∧
  fst (testBackendConnection env_heroku net_down w_init) = false ∧
  probe_connected
    (probe_answer env_heroku (net_status 401 "Unauthorized") w_init) ∧
  fst (testBackendConnection env_heroku (net_status 401 "Unauthorized")
                             w_init) = true.
Proof.
  assert (Hwin : is_Some (window_hostname env_heroku))
    by (eexists; reflexivity).
  assert (Hn : ¬ response_received (probe_answer env_heroku net_down w_init)).
  { vm_compute. intros [r Hr]. discriminate Hr. }
  assert (Hc : probe_connected
                 (probe_answer env_heroku (net_status 401 "Unauthorized")
                               w_init)).
  { vm_compute. eexists. split; [reflexivity|]. right. right. left.
    reflexivity. }
  split; [exact Hwin|]. split; [exact Hn|]. split.
  - exact (proj2 (probe_connected_iff env_heroku net_down w_init Hwin) Hn).
  - split; [exact Hc|].
    exact (proj2 (proj1 (probe_connected_iff env_heroku
                           (net_status 401 "Unauthorized") w_init Hwin)) Hc).
Defined.

(** C2 as the spec words it fails: the backend answers the probe with
    status 500 and a well-formed body, and the probe reports not
    connected. *)
Lemma probe_500_not_connected :
  let net := net_status 500 "Internal Server Error" in
  response_received (probe_answer env_heroku net w_init) ∧
  fst (testBackendConnection env_heroku net w_init) = false.
Proof.
  split.
  - vm_compute. eexists. reflexivity.
  - vm_compute. reflexivity.
Qed.

(** C9 as the spec words it fails: with [NODE_ENV] set to [development],
    a page served from a herokuapp.com host runs in production mode. *)
Lemma heroku_host_is_production :
  ¬ production_by_NODE_ENV env_heroku ∧
  NODE_ENV env_heroku = NODE_ENV env_dev ∧
  isProduction env_heroku = true ∧
  isProduction env_dev = false ∧
  API_BASE_URL env_heroku = "".
Proof.
  split; [|repeat split].
  intros [H _]. specialize (H eq_refl). discriminate H.
Qed.

Lemma proxy_failure_answers_500_witness :
  let err := mkErr "connect ECONNREFUSED" in
  api_route upstream_down (order_request "/api") fresh_res =
    (mkRes 500 (Some (JsonBody (Js.Obj [("error", Js.Str "Proxy error")]))),
     [Forwarded API_TARGET (order_request "/api")
        (api_onProxyReq
           (mkProxyReq (req_headers (order_request "/api")) [])
           (order_request "/api"))]) ∧
  statusCode
    (fst (open_api_route Js.stringify upstream_down
            (order_request "/open-api") fresh_res)) = 500.
Proof.
  intros err.
  destruct (proxy_failure_answers_500 Js.stringify upstream_down
              (order_request "/api") fresh_res err) as [Ha _].
  destruct (proxy_failure_answers_500 Js.stringify upstream_down
              (order_request "/open-api") fresh_res err) as [_ Ho].
  split.
  - apply Ha. reflexivity.
  - rewrite (Ho eq_refl). reflexivity.
Defined.

(** ** Further properties of the client *)

Section Client_more.

Variable env : Env.
Variable net : World -> ReqConfig -> Outcome.

Lemma primary_calls_snoc t ev :
  primary_calls (t ++ [ev]) =
    primary_calls t ++ (if is_primary_call ev then [ev] else []).
Proof. unfold primary_calls. rewrite List.filter_app. reflexivity. Qed.

Lemma attempt_primary_world op u cfg w :
  snd (attempt net (axiosInstance env) op u cfg w) =
    match answer net (axiosInstance env) (op_method op) u (op_data op) cfg w
    with
    | Resolved _ => called Primary (op_method op) u (op_data op) cfg w
    | Rejected e =>
        after_rejection env e
          (called Primary (op_method op) u (op_data op) cfg w)
    end.
Proof.
  unfold attempt. rewrite request_primary_answer.
  destruct (answer _ _ _ _ _ _ _); reflexivity.
Qed.

Lemma attempt_primary_fst op u cfg w :
  fst (attempt net (axiosInstance env) op u cfg w) =
    match answer net (axiosInstance env) (op_method op) u (op_data op) cfg w
    with
    | Resolved r => Resolved r
    | Rejected e => Rejected (rejected_as env e)
    end.
Proof.
  unfold attempt. rewrite request_primary_answer.
  destruct (answer _ _ _ _ _ _ _); reflexivity.
Qed.

(** How a call unfolds, in terms of what the network answers. *)
Lemma call_cases op u cfg w :
  let m := op_method op in
  let d := op_data op in
  let w1 := snd (attempt net (axiosInstance env) op u cfg w) in
  (∃ r, answer net (axiosInstance env) m u d cfg w = Resolved r ∧
        call env net op u cfg w = (Resolved r, w1)) ∨
  (∃ e, answer net (axiosInstance env) m u d cfg w = Rejected e ∧
        ¬ retry_condition env (rejected_as env e) ∧
        call env net op u cfg w = (Rejected (rejected_as env e), w1)) ∨
  (∃ e, answer net (axiosInstance env) m u d cfg w = Rejected e ∧
        rejected_as env e = e ∧
        retry_condition env e ∧
        call env net op u cfg w =
          (answer net fallbackAxiosInstance m u d cfg w1,
           called Fallback m u d cfg w1)).
Proof.
  intros m d w1. subst m d w1.
  pose proof (attempt_primary_fst op u cfg w) as Hf.
  destruct (attempt net (axiosInstance env) op u cfg w) as [o w1] eqn:Hp.
  simpl in *. subst o.
  destruct (answer net (axiosInstance env) _ u _ cfg w) as [r|e] eqn:Ha.
  - left. exists r. split; [reflexivity|]. apply call_resolved, Hp.
  - right.
    destruct (retry_condition_dec env (rejected_as env e)) as [Hc|Hc].
    + right. exists e.
      assert (He : rejected_as env e = e).
      { unfold rejected_as in *. destruct (hook_fires e); [|reflexivity].
        destruct (window_hostname env); [reflexivity|].
        destruct (ReferenceError_not_retried env Hc). }
      split; [reflexivity|]. split; [exact He|].
      split; [rewrite <- He; exact Hc|].
      rewrite (call_retry _ _ _ _ _ _ _ _ Hp Hc). unfold attempt.
      apply request_fallback_answer.
    + left. exists e. repeat split; [exact Hc|].
      apply (call_no_retry _ _ _ _ _ _ _ _ Hp Hc).
Qed.

(** X1: when the primary attempt succeeds, [get]/[post] return its
    response; storage and location are untouched and the only effect is
    the one call on the primary client. *)
Theorem primary_success_passes_through op u cfg w r :
  answer net (axiosInstance env) (op_method op) u (op_data op) cfg w
    = Resolved r →
  call env net op u cfg w =
    (Resolved r, called Primary (op_method op) u (op_data op) cfg w).
Proof.
  intros Ha. apply call_resolved. unfold attempt.
  rewrite request_primary_answer, Ha. reflexivity.
Qed.

(** X2: when the primary attempt fails with a retryable error and the
    fallback attempt succeeds, [get]/[post] return the fallback's
    response, and the fallback call is the last effect. *)
Theorem fallback_success_is_returned op u cfg w e w1 r :
  attempt net (axiosInstance env) op u cfg w = (Rejected e, w1) →
  retry_condition env e →
  answer net fallbackAxiosInstance (op_method op) u (op_data op) cfg w1
    = Resolved r →
  call env net op u cfg w =
    (Resolved r, called Fallback (op_method op) u (op_data op) cfg w1).
Proof.
  intros Hp Hc Hf.
  rewrite (call_retry _ _ _ _ _ _ _ _ Hp Hc). unfold attempt.
  rewrite request_fallback_answer, Hf. reflexivity.
Qed.

(** X3: in a browser, an error handed to the caller of [get]/[post] is
    always one the network produced: the primary attempt's error when it
    is not retried, else the fallback attempt's error.  Where there is no
    [window], the one other error is the [ReferenceError] thrown by the
    401 branch of the response hook. *)
Theorem rejection_comes_from_network op u cfg w x w' :
  call env net op u cfg w = (Rejected x, w') →
  let m := op_method op in
  let d := op_data op in
  let w1 := snd (attempt net (axiosInstance env) op u cfg w) in
  (answer net (axiosInstance env) m u d cfg w = Rejected x ∧
   ¬ retry_condition env x ∧ w' = w1) ∨
  (∃ e, answer net (axiosInstance env) m u d cfg w = Rejected e ∧
        retry_condition env e ∧
        answer net fallbackAxiosInstance m u d cfg w1 = Rejected x ∧
        w' = called Fallback m u d cfg w1) ∨
  (∃ e, answer net (axiosInstance env) m u d cfg w = Rejected e ∧
        hook_fires e = true ∧
        window_hostname env = None ∧
        x = ReferenceError_window ∧ w' = w1).
Proof.
  intros Hcall m d w1.
  destruct (call_cases op u cfg w) as [(r & _ & H)|[(e & He & Hn & H)|
                                        (e & He & _ & Hc & H)]];
    rewrite H in Hcall; inversion Hcall; subst.
  - unfold rejected_as in *.
    destruct (hook_fires e) eqn:Hh; [|left; auto].
    destruct (window_hostname env) eqn:Hw; [left; auto|].
    right. right. exists e. auto.
  - right. left. exists e. auto.
Qed.

(** X4: each [get]/[post] makes exactly one call on the primary client
    and at most one on the fallback client, with the caller's arguments. *)
Theorem one_primary_call_at_most_one_fallback op u cfg w :
  let m := op_method op in
  let d := op_data op in
  let t := trace (snd (call env net op u cfg w)) in
  primary_calls t = primary_calls (trace w) ++ [ECall Primary m u d cfg] ∧
  (fallback_calls t = fallback_calls (trace w) ∨
   fallback_calls t = fallback_calls (trace w) ++ [ECall Fallback m u d cfg]).
Proof.
  intros m d t. subst t.
  assert (Hp1 : primary_calls
                  (trace (snd (attempt net (axiosInstance env) op u cfg w)))
                = primary_calls (trace w) ++ [ECall Primary m u d cfg]).
  { rewrite attempt_primary_world. fold m d.
    destruct (answer _ _ _ _ _ _ _) as [r|e]; simpl.
    - rewrite primary_calls_snoc. reflexivity.
    - unfold after_rejection.
      destruct (hook_fires e); [destruct (window_hostname env)|]; simpl.
      + unfold primary_calls. rewrite !List.filter_app. simpl.
        rewrite app_nil_r. reflexivity.
      + unfold primary_calls. rewrite !List.filter_app. simpl.
        rewrite app_nil_r. reflexivity.
      + rewrite primary_calls_snoc. reflexivity. }
  assert (Hf1 : fallback_calls
                  (trace (snd (attempt net (axiosInstance env) op u cfg w)))
                = fallback_calls (trace w))
    by apply trace_request_primary.
  destruct (call_cases op u cfg w) as [(r & _ & H)|[(e & _ & _ & H)|
                                        (e & _ & _ & _ & H)]];
    rewrite H; simpl.
  - auto.
  - auto.
  - rewrite primary_calls_snoc, fallback_calls_snoc. simpl.
    rewrite app_nil_r, Hp1, Hf1. auto.
Qed.

(** X5: outside production mode [get]/[post] are the primary client's
    own [get]/[post]: same result, same effects. *)
Theorem non_production_is_primary_only op u cfg w :
  isProduction env = false →
  call env net op u cfg w = attempt net (axiosInstance env) op u cfg w.
Proof.
  intros Hd.
  destruct (attempt net (axiosInstance env) op u cfg w) as [[r|e] w1] eqn:Hp.
  - apply call_resolved, Hp.
  - apply (call_no_retry _ _ _ _ _ _ _ _ Hp). intros [Hprod _]. congruence.
Qed.

(** X6: on the primary client every failure other than a 401 carrying
    its request is handed on as it is: storage and location are untouched
    and nothing is navigated.  A 401 error without a request
    configuration is among them. *)
Theorem other_failures_pass_unchanged m u d cfg w e :
  answer net (axiosInstance env) m u d cfg w = Rejected e →
  status_is e 401 = false ∨ config e = None →
  request net (axiosInstance env) m u d cfg w =
    (Rejected e, called Primary m u d cfg w).
Proof.
  intros Ha Hc. rewrite request_primary_answer, Ha.
  assert (Hh : hook_fires e = false).
  { unfold hook_fires. destruct Hc as [->| ->]; [reflexivity|].
    apply andb_false_r. }
  unfold rejected_as, after_rejection. rewrite Hh. reflexivity.
Qed.

(** X7: a [get] or [post] whose primary attempt is not answered with 401
    leaves storage and location as they were, whether or not the fallback
    client is tried and whatever it answers. *)
Theorem call_without_401_keeps_browser_state op u cfg w :
  no_401 (answer net (axiosInstance env) (op_method op) u (op_data op) cfg w) →
  storage (snd (call env net op u cfg w)) = storage w ∧
  href (snd (call env net op u cfg w)) = href w.
Proof.
  intros Hn.
  assert (Hw : storage (snd (attempt net (axiosInstance env) op u cfg w))
               = storage w ∧
               href (snd (attempt net (axiosInstance env) op u cfg w))
               = href w).
  { rewrite attempt_primary_world.
    destruct (answer _ _ _ _ _ _ _) as [r|e]; simpl in *; [auto|].
    unfold after_rejection, hook_fires. rewrite Hn. auto. }
  destruct (call_cases op u cfg w) as [(r & _ & H)|[(e & _ & _ & H)|
                                        (e & _ & _ & _ & H)]];
    rewrite H; exact Hw.
Qed.

(** X8: after a 401 on the primary client [accessToken] and
    [refreshToken] are absent from storage, and the credential the next
    request attaches is [storeUserAccessToken] when it holds a non-empty
    string, else none. *)
Theorem after_unauthorized_next_credential m u d cfg w e :
  answer net (axiosInstance env) m u d cfg w = Rejected e →
  status_is e 401 = true →
  is_Some (config e) →
  let w' := snd (request net (axiosInstance env) m u d cfg w) in
  storage w' !! "accessToken" = None ∧
  storage w' !! "refreshToken" = None ∧
  first_credential (storage w') = present (storage w) "storeUserAccessToken".
Proof.
  intros Ha Hs Hc w'. subst w'.
  rewrite request_primary_answer, Ha.
  unfold after_rejection, hook_fires. rewrite Hs.
  rewrite bool_decide_eq_true_2 by exact Hc. simpl.
  assert (Hw' : ∀ w0 : World,
            storage (match window_hostname env with
                     | Some _ => logged_out w0
                     | None => tokens_removed w0
                     end)
            = delete "refreshToken" (delete "accessToken" (storage w0)))
    by (intros w0; destruct (window_hostname env); reflexivity).
  rewrite Hw'. simpl.
  assert (H1 : delete "refreshToken" (delete "accessToken" (storage w))
               !! "accessToken" = None).
  { rewrite lookup_delete_ne by discriminate. apply lookup_delete_eq. }
  split; [exact H1|]. split; [apply lookup_delete_eq|].
  unfold first_credential, present. rewrite H1.
  rewrite !lookup_delete_ne by discriminate. reflexivity.
Qed.

Lemma testBackendConnection_snd w :
  snd (testBackendConnection env net w) =
    snd (request net (axiosInstance env) "get" "/health" Js.Undefined
                 probe_config w).
Proof.
  unfold testBackendConnection, bind, probe_config.
  destruct (request net (axiosInstance env) _ _ _ _ w) as [[r|e] w1]; simpl.
  - destruct (result_code_2003 (resp_data r)); reflexivity.
  - repeat match goal with
           | |- context [if ?b then _ else _] => destruct b
           end; reflexivity.
Qed.

(** X9: the connectivity probe runs on the primary client.  In a
    browser a 401 answer makes it report connected and, on its way,
    removes [accessToken] and [refreshToken] and sends the page to
    [/auth/login].  Where there is no [window] the same answer removes the
    two entries, navigates nowhere, and the probe reports not connected. *)
Theorem probe_unauthorized_logs_out w e :
  probe_answer env net w = Rejected e →
  status_is e 401 = true →
  is_Some (config e) →
  let w0 := called Primary "get" "/health" Js.Undefined probe_config w in
  (is_Some (window_hostname env) →
   testBackendConnection env net w = (true, logged_out w0)) ∧
  (window_hostname env = None →
   testBackendConnection env net w = (false, tokens_removed w0)).
Proof.
  intros Ha Hs Hc w0. subst w0.
  pose proof (testBackendConnection_fst env net w) as Hf.
  pose proof (testBackendConnection_snd w) as Hw.
  rewrite Ha in Hf. unfold probe_answer in Ha.
  rewrite request_primary_answer in Hw. unfold probe_config in Hw.
  rewrite Ha in Hw. simpl in Hw.
  assert (Hh : hook_fires e = true).
  { unfold hook_fires. rewrite Hs. apply bool_decide_eq_true_2, Hc. }
  unfold rejected_as in Hf. unfold after_rejection in Hw.
  rewrite Hh in Hf, Hw.
  destruct (testBackendConnection env net w) as [b w1]. simpl in *.
  split.
  - intros [h Hh']. rewrite Hh' in Hf, Hw.
    unfold status_is in Hs. destruct (response e) as [r|]; [|discriminate].
    rewrite Hs in Hf. rewrite orb_true_r in Hf. simpl in Hf.
    subst. reflexivity.
  - intros Hn. rewrite Hn in Hf, Hw. simpl in Hf. subst. reflexivity.
Qed.

(** X19: where there is no [window], a 401 on the primary client removes
    [accessToken] and [refreshToken] once each, navigates nowhere, and
    the caller gets the [ReferenceError] instead of the original error;
    [get]/[post] do not retry it. *)
Theorem unauthorized_without_window op u cfg w e :
  window_hostname env = None →
  answer net (axiosInstance env) (op_method op) u (op_data op) cfg w
    = Rejected e →
  status_is e 401 = true →
  is_Some (config e) →
  let w1 := tokens_removed
              (called Primary (op_method op) u (op_data op) cfg w) in
  attempt net (axiosInstance env) op u cfg w
    = (Rejected ReferenceError_window, w1) ∧
  call env net op u cfg w = (Rejected ReferenceError_window, w1) ∧
  href w1 = href w ∧
  trace w1 =
    trace w ++ [ECall Primary (op_method op) u (op_data op) cfg;
                ERemoveItem "accessToken";
                ERemoveItem "refreshToken"].
Proof.
  intros Hn Ha Hs Hc w1. subst w1.
  assert (Hh : hook_fires e = true).
  { unfold hook_fires. rewrite Hs. apply bool_decide_eq_true_2, Hc. }
  assert (Hp : attempt net (axiosInstance env) op u cfg w
               = (Rejected ReferenceError_window,
                  tokens_removed
                    (called Primary (op_method op) u (op_data op) cfg w))).
  { unfold attempt. rewrite request_primary_answer, Ha.
    unfold rejected_as, after_rejection. rewrite Hh, Hn. reflexivity. }
  split; [exact Hp|]. split.
  - apply (call_no_retry _ _ _ _ _ _ _ _ Hp).
    apply ReferenceError_not_retried.
  - split; [reflexivity|]. simpl. rewrite <- app_assoc. reflexivity.
Qed.

(** X10: the connectivity probe makes one call on the primary client and
    none on the fallback client, and leaves storage and location as they
    were unless it is answered with 401. *)
Theorem probe_uses_primary_only w :
  let w' := snd (testBackendConnection env net w) in
  primary_calls (trace w') =
    primary_calls (trace w)
      ++ [ECall Primary "get" "/health" Js.Undefined probe_config] ∧
  fallback_calls (trace w') = fallback_calls (trace w) ∧
  (no_401 (probe_answer env net w) →
   storage w' = storage w ∧ href w' = href w).
Proof.
  intros w'. subst w'. rewrite testBackendConnection_snd.
  split; [|split].
  - rewrite request_primary_answer.
    destruct (answer _ _ _ _ _ _ _) as [r|e]; simpl.
    + rewrite primary_calls_snoc. reflexivity.
    + unfold after_rejection.
      destruct (hook_fires e); [destruct (window_hostname env)|]; simpl.
      * unfold primary_calls. rewrite !List.filter_app. simpl.
        rewrite app_nil_r. reflexivity.
      * unfold primary_calls. rewrite !List.filter_app. simpl.
        rewrite app_nil_r. reflexivity.
      * rewrite primary_calls_snoc. reflexivity.
  - apply trace_request_primary.
  - unfold probe_answer, probe_config. intros Hn.
    rewrite request_primary_answer.
    destruct (answer _ _ _ _ _ _ _) as [r|e]; simpl in *; [auto|].
    unfold after_rejection, hook_fires. rewrite Hn. auto.
Qed.

(** X11: after the request hook the [authorization-token] header is the
    stored credential when there is one, overriding a value the caller
    supplied, and the caller's own value otherwise; every other header
    and every other field of the configuration is left alone. *)
Theorem authorization_header_after_hook name config w k :
  let c := fst (request_handler name config w) in
  headers c !! "authorization-token" =
    match first_credential (storage w) with
    | Some t => Some t
    | None => headers config !! "authorization-token"
    end ∧
  (k ≠ "authorization-token" → headers c !! k = headers config !! k) ∧
  (Client.method c, baseURL c, Client.url c, data c, timeout c,
   withCredentials c) =
    (Client.method config, baseURL config, Client.url config, data config,
     timeout config, withCredentials config).
Proof.
  intros c. subst c. rewrite request_handler_spec. simpl.
  destruct (first_credential (storage w)) as [t|]; simpl.
  - split; [apply lookup_insert_eq|]. split; [|reflexivity].
    intros Hk. apply lookup_insert_ne. congruence.
  - auto.
Qed.

(** X12: where there is no [window] (the module is loaded outside a
    browser), production mode is decided by [NODE_ENV] alone. *)
Theorem production_without_window :
  window_hostname env = None →
  production_by_NODE_ENV env ∧
  API_BASE_URL env =
    (if bool_decide (NODE_ENV env = Some "production") then ""
     else FALLBACK_API_BASE_URL).
Proof.
  intros Hw. unfold production_by_NODE_ENV, API_BASE_URL, isProduction.
  rewrite Hw, orb_false_r. split; [apply bool_decide_eq_true|].
  destruct (bool_decide (NODE_ENV env = Some "production")); reflexivity.
Qed.

(** X13: outside production mode the two clients send the same request:
    same base URL, same headers, same everything. *)
Theorem non_production_clients_send_same_request m u d cfg w :
  isProduction env = false →
  fst (prepare (axiosInstance env) m u d cfg w) =
    fst (prepare fallbackAxiosInstance m u d cfg w).
Proof.
  intros Hd. rewrite prepare_primary, prepare_fallback. simpl.
  unfold API_BASE_URL. rewrite Hd. reflexivity.
Qed.

End Client_more.

Lemma prefix_append sub s :
  String.prefix sub s = true ↔ ∃ post, s = String.append sub post.
Proof.
  revert s. induction sub as [|a sub IH]; intros s; simpl.
  - split; [intros _; exists s; reflexivity | destruct s; reflexivity].
  - destruct s as [|b s]; simpl.
    + split; [discriminate | intros [post H]; discriminate H].
    + destruct (Ascii.ascii_dec a b) as [->|Hne].
      * rewrite IH. split; intros [post H]; exists post.
        -- rewrite H. reflexivity.
        -- inversion H. reflexivity.
      * split; [discriminate|]. intros [post H]. inversion H. congruence.
Qed.

Lemma includes_substring s sub :
  Js.includes s sub = true ↔
  ∃ pre post, s = String.append pre (String.append sub post).
Proof.
  induction s as [|a s IH]; cbn [Js.includes];
    rewrite orb_true_iff, prefix_append.
  - split.
    + intros [[post H]|H]; [|discriminate]. exists "", post. exact H.
    + intros (pre & post & H). left. exists post.
      destruct pre; [exact H | discriminate H].
  - rewrite IH. split.
    + intros [[post H]|(pre & post & H)].
      * exists "", post. exact H.
      * exists (String a pre), post. simpl. rewrite H. reflexivity.
    + intros (pre & post & H). destruct pre as [|b pre]; simpl in H.
      * left. exists post. exact H.
      * right. inversion H. exists pre, post. reflexivity.
Qed.

(** X14: the message test of the retry condition holds exactly when the
    error has a message and the given text occurs in it as a substring,
    letter case included. *)
Theorem message_test_is_substring e s :
  message_includes e s = true ↔
  ∃ m pre post, message e = Some m ∧
                m = String.append pre (String.append s post).
Proof.
  unfold message_includes. destruct (message e) as [m|].
  - rewrite includes_substring. split.
    + intros (pre & post & H). exists m, pre, post. auto.
    + intros (m' & pre & post & Hm & H). inversion Hm; subst m'. eauto.
  - split; [discriminate|]. intros (m & _ & _ & H & _). discriminate H.
Qed.

(** ** Further properties of the server *)

Section Server_more.

Variable JSON_stringify : Js.value -> string.

(** X15: on [/open-api], a POST with a body goes out with the
    re-serialized body as its only chunk, [content-length] equal to the
    bytes written, and [content-type] set to JSON whatever came in; no
    other header is touched. *)
Theorem open_api_post_is_framed p req k :
  pr_written p = [] →
  Js.truthy (body req) = true →
  method req = "POST" →
  let q := open_api_onProxyReq JSON_stringify p req in
  pr_written q = [JSON_stringify (body req)] ∧
  pr_headers q !! "content-length" = Some (HNum (written_bytes q)) ∧
  pr_headers q !! "content-type" = Some (HStr "application/json") ∧
  (k ≠ "content-type" → k ≠ "content-length" →
   pr_headers q !! k = pr_headers p !! k).
Proof.
  intros Hw Hb Hm q. subst q.
  unfold open_api_onProxyReq, written_bytes, setHeader, write.
  change (Js.toLowerCase "Content-Length") with "content-length".
  change (Js.toLowerCase "Content-Type") with "content-type".
  rewrite Hb, Hm. simpl. rewrite Hw. simpl. rewrite Z.add_0_r.
  split; [reflexivity|]. split; [apply lookup_insert_eq|]. split.
  - rewrite lookup_insert_ne by discriminate. apply lookup_insert_eq.
  - intros H1 H2. rewrite !lookup_insert_ne by congruence. reflexivity.
Qed.

(** X16: a request that is not a POST, or whose parsed body is falsy,
    passes both hooks untouched: no header is set and no body is
    written, also for PUT, PATCH and DELETE. *)
Theorem hooks_skip_other_requests p req :
  method req ≠ "POST" ∨ Js.truthy (body req) = false →
  api_onProxyReq p req = p ∧
  open_api_onProxyReq JSON_stringify p req = p.
Proof.
  intros H. unfold api_onProxyReq, open_api_onProxyReq.
  assert (Hb : Js.truthy (body req) && String.eqb (method req) "POST"
               = false).
  { destruct H as [H|H].
    - apply String.eqb_neq in H. rewrite H. apply andb_false_r.
    - rewrite H. reflexivity. }
  rewrite Hb. auto.
Qed.

(** X17: the [/api] hook never writes to the outgoing request and
    changes no header but [content-type], which a POST with a body gets
    set to JSON. *)
Theorem api_hook_touches_content_type_only p req k :
  pr_written (api_onProxyReq p req) = pr_written p ∧
  (k ≠ "content-type" →
   pr_headers (api_onProxyReq p req) !! k = pr_headers p !! k) ∧
  (Js.truthy (body req) = true → method req = "POST" →
   pr_headers (api_onProxyReq p req) !! "content-type"
     = Some (HStr "application/json")).
Proof.
  unfold api_onProxyReq, setHeader.
  change (Js.toLowerCase "Content-Type") with "content-type".
  split; [|split].
  - destruct (_ && _); reflexivity.
  - intros Hk. destruct (_ && _); simpl; [|reflexivity].
    apply lookup_insert_ne. congruence.
  - intros Hb Hm. rewrite Hb, Hm. simpl. apply lookup_insert_eq.
Qed.

(** X18: the liveness route answers with the status code left as it was
    and a payload whose [status] is [healthy]; the reported port is the
    [PORT] variable as a string, and the number 3000 exactly when the
    variable is unset or empty. *)
Theorem health_reports_port env_PORT env_NODE_ENV now distExists req res :
  let out := health env_PORT env_NODE_ENV now distExists req res in
  statusCode out = statusCode res ∧
  (∃ v, res_body out = Some (JsonBody v) ∧
        Js.prop v "status" = Js.Str "healthy" ∧
        Js.prop v "port" = PORT env_PORT) ∧
  Js.truthy (PORT env_PORT) = true ∧
  (PORT env_PORT = Js.Num 3000 ↔ env_PORT = None ∨ env_PORT = Some "") ∧
  (∀ s, env_PORT = Some s → s ≠ "" → PORT env_PORT = Js.Str s).
Proof.
  intros out. subst out. split; [reflexivity|]. split.
  { eexists. split; [reflexivity|]. split; reflexivity. }
  unfold PORT. destruct env_PORT as [s|]; simpl.
  - destruct (String.eqb_spec s "") as [->|Hne]; simpl.
    + split; [reflexivity|]. split; [tauto|]. intros s' H1 H2. congruence.
    + split.
      * destruct (String.eqb_spec s ""); [contradiction | reflexivity].
      * split.
        -- split; [discriminate|]. intros [H|H]; congruence.
        -- intros s' H _. congruence.
  - split; [reflexivity|]. split; [tauto|]. intros s' H. discriminate H.
Qed.

End Server_more.

(** ** The further properties at sample inputs *)

Lemma primary_success_passes_through_witness :
  call env_dev net_ok Get "/api/stores" None w_init =
    (Resolved ok_response,
     called Primary "get" "/api/stores" Js.Undefined None w_init).
Proof.
  apply (primary_success_passes_through env_dev net_ok Get "/api/stores"
           None w_init ok_response).
  vm_compute. reflexivity.
Defined.

Lemma fallback_success_is_returned_witness :
  let e := network_error (sample_config env_prod "get" "/api/stores"
                                        Js.Undefined) in
  let w1 := called Primary "get" "/api/stores" Js.Undefined None w_init in
  attempt net_proxy_down (axiosInstance env_prod) Get "/api/stores" None
          w_init = (Rejected e, w1) ∧
  retry_condition env_prod e ∧
  call env_prod net_proxy_down Get "/api/stores" None w_init =
    (Resolved ok_response,
     called Fallback "get" "/api/stores" Js.Undefined None w1).
Proof.
  intros e w1.
  assert (Hp : attempt net_proxy_down (axiosInstance env_prod) Get
                 "/api/stores" None w_init = (Rejected e, w1))
    by (vm_compute; reflexivity).
  assert (Hc : retry_condition env_prod e)
    by (split; [reflexivity | left; reflexivity]).
  split; [exact Hp|]. split; [exact Hc|].
  apply (fallback_success_is_returned env_prod net_proxy_down Get
           "/api/stores" None w_init e w1 ok_response Hp Hc).
  vm_compute. reflexivity.
Defined.

Lemma rejection_comes_from_network_witness :
  let x := network_error (sample_config env_dev "get" "/api/stores"
                                        Js.Undefined) in
  let w1 := called Primary "get" "/api/stores" Js.Undefined None w_init in
  call env_dev net_down Get "/api/stores" None w_init = (Rejected x, w1) ∧
  answer net_down (axiosInstance env_dev) "get" "/api/stores" Js.Undefined
         None w_init = Rejected x.
Proof.
  intros x w1.
  assert (Hcall : call env_dev net_down Get "/api/stores" None w_init
                  = (Rejected x, w1)) by (vm_compute; reflexivity).
  split; [exact Hcall|].
  destruct (rejection_comes_from_network env_dev net_down Get "/api/stores"
              None w_init x w1 Hcall)
    as [(Ha & _ & _)|[(e & _ & [Hp _] & _)|(e & _ & _ & Hw & _)]].
  - exact Ha.
  - discriminate Hp.
  - discriminate Hw.
Defined.

Lemma non_production_is_primary_only_witness :
  isProduction env_dev = false ∧
  call env_dev net_down (Post (Js.Obj [("storeId", Js.Num 1)])) "/api/orders"
       None w_init =
    attempt net_down (axiosInstance env_dev)
            (Post (Js.Obj [("storeId", Js.Num 1)])) "/api/orders" None w_init.
Proof.
  split; [reflexivity|].
  apply (non_production_is_primary_only env_dev net_down). reflexivity.
Defined.

Lemma other_failures_pass_unchanged_witness :
  let e := http_error 403 "Forbidden"
             (sample_config env_prod "get" "/api/user/me" Js.Undefined) in
  status_is e 401 = false ∧
  request (net_status 403 "Forbidden") (axiosInstance env_prod) "get"
          "/api/user/me" Js.Undefined None w_init =
    (Rejected e, called Primary "get" "/api/user/me" Js.Undefined None w_init).
Proof.
  intros e. split; [reflexivity|].
  apply (other_failures_pass_unchanged env_prod (net_status 403 "Forbidden")
           "get" "/api/user/me" Js.Undefined None w_init e).
  - vm_compute. reflexivity.
  - left. reflexivity.
Defined.

Lemma call_without_401_keeps_browser_state_witness :
  let d := Js.Obj [("storeId", Js.Num 1)] in
  no_401 (answer net_proxy_down (axiosInstance env_prod) "post" "/api/orders"
                 d None w_init) ∧
  storage (snd (call env_prod net_proxy_down (Post d) "/api/orders" None
                     w_init)) = storage w_init ∧
  href (snd (call env_prod net_proxy_down (Post d) "/api/orders" None w_init))
    = href w_init.
Proof.
  intros d.
  assert (Hn : no_401 (answer net_proxy_down (axiosInstance env_prod) "post"
                              "/api/orders" d None w_init))
    by (vm_compute; reflexivity).
  split; [exact Hn|].
  exact (call_without_401_keeps_browser_state env_prod net_proxy_down
           (Post d) "/api/orders" None w_init Hn).
Defined.

Lemma after_unauthorized_next_credential_witness :
  let w' := snd (request (net_status 401 "Unauthorized")
                         (axiosInstance env_prod) "get" "/api/user/me"
                         Js.Undefined None w_init) in
  storage w' !! "accessToken" = None ∧
  storage w' !! "refreshToken" = None ∧
  first_credential (storage w') = Some "owner-token".
Proof.
  intros w'.
  destruct (after_unauthorized_next_credential env_prod
              (net_status 401 "Unauthorized") "get" "/api/user/me"
              Js.Undefined None w_init
              (http_error 401 "Unauthorized"
                 (sample_config env_prod "get" "/api/user/me" Js.Undefined)))
    as (Ha & Hr & Hc).
  - vm_compute. reflexivity.
  - reflexivity.
  - eexists. reflexivity.
  - split; [exact Ha|]. split; [exact Hr|].
    etransitivity; [exact Hc | vm_compute; reflexivity].
Defined.

Lemma probe_unauthorized_logs_out_witness :
  let w0 := called Primary "get" "/health" Js.Undefined probe_config w_init in
  testBackendConnection env_heroku (net_status 401 "Unauthorized") w_init
    = (true, logged_out w0) ∧
  testBackendConnection env_prod (net_status 401 "Unauthorized") w_init
    = (false, tokens_removed w0).
Proof.
  intros w0.
  pose (c := attach (storage w_init)
               (mergeConfig (json_defaults "") "get" "/health" Js.Undefined
                            probe_config)).
  split.
  - apply (probe_unauthorized_logs_out env_heroku
             (net_status 401 "Unauthorized") w_init
             (http_error 401 "Unauthorized" c));
      [vm_compute; reflexivity | reflexivity | eexists; reflexivity
      | eexists; reflexivity].
  - apply (probe_unauthorized_logs_out env_prod
             (net_status 401 "Unauthorized") w_init
             (http_error 401 "Unauthorized" c));
      [vm_compute; reflexivity | reflexivity | eexists; reflexivity
      | reflexivity].
Defined.

Lemma unauthorized_without_window_witness :
  let w1 := tokens_removed
              (called Primary "get" "/api/user/me" Js.Undefined None w_init) in
  window_hostname env_prod = None ∧
  call env_prod (net_status 401 "Unauthorized") Get "/api/user/me" None w_init
    = (Rejected ReferenceError_window, w1) ∧
  href w1 = "/stores".
Proof.
  intros w1. split; [reflexivity|].
  destruct (unauthorized_without_window env_prod
              (net_status 401 "Unauthorized") Get "/api/user/me" None w_init
              (http_error 401 "Unauthorized"
                 (sample_config env_prod "get" "/api/user/me" Js.Undefined)))
    as (_ & Hcall & Hh & _).
  - reflexivity.
  - vm_compute. reflexivity.
  - reflexivity.
  - eexists. reflexivity.
  - split; [exact Hcall | exact Hh].
Defined.

Lemma probe_uses_primary_only_witness :
  let w' := snd (testBackendConnection env_prod net_down w_init) in
  no_401 (probe_answer env_prod net_down w_init) ∧
  fallback_calls (trace w') = [] ∧
  storage w' = storage w_init ∧
  href w' = href w_init.
Proof.
  intros w'.
  assert (Hn : no_401 (probe_answer env_prod net_down w_init))
    by (vm_compute; reflexivity).
  destruct (probe_uses_primary_only env_prod net_down w_init)
    as (_ & Hf & Hs).
  split; [exact Hn|]. split; [exact Hf|]. exact (Hs Hn).
Defined.

Lemma authorization_header_after_hook_witness :
  let config := mergeConfig (json_defaults "") "get" "/api/stores"
                            Js.Undefined None in
  let c := fst (request_handler "PROXY" config w_init) in
  headers c !! "Accept" = headers config !! "Accept".
Proof.
  intros config c.
  destruct (authorization_header_after_hook "PROXY" config w_init "Accept")
    as (_ & Hk & _).
  apply Hk. discriminate.
Defined.

Lemma production_without_window_witness :
  window_hostname env_prod = None ∧ production_by_NODE_ENV env_prod.
Proof.
  split; [reflexivity|].
  exact (proj1 (production_without_window env_prod eq_refl)).
Defined.

Lemma non_production_clients_send_same_request_witness :
  isProduction env_dev = false ∧
  fst (prepare (axiosInstance env_dev) "get" "/api/stores" Js.Undefined None
               w_init) =
    fst (prepare fallbackAxiosInstance "get" "/api/stores" Js.Undefined None
                 w_init).
Proof.
  split; [reflexivity|].
  apply (non_production_clients_send_same_request env_dev). reflexivity.
Defined.

Lemma open_api_post_is_framed_witness :
  let req := order_request "/open-api" in
  let q := open_api_onProxyReq Js.stringify
             (mkProxyReq (req_headers req) []) req in
  pr_written q = [Js.stringify (body req)] ∧
  pr_headers q !! "content-length" = Some (HNum (written_bytes q)) ∧
  written_bytes q = 29.
Proof.
  intros req q.
  destruct (open_api_post_is_framed Js.stringify
              (mkProxyReq (req_headers req) []) req "accept"
              eq_refl eq_refl eq_refl) as (Hw & Hl & _).
  split; [exact Hw|]. split; [exact Hl|]. vm_compute. reflexivity.
Defined.

Lemma hooks_skip_other_requests_witness :
  let req := list_request "/open-api" in
  let p := mkProxyReq (req_headers req) [] in
  method req ≠ "POST" ∧
  api_onProxyReq p req = p ∧
  open_api_onProxyReq Js.stringify p req = p.
Proof.
  intros req p.
  assert (Hm : method req ≠ "POST") by discriminate.
  split; [exact Hm|].
  exact (hooks_skip_other_requests Js.stringify p req (or_introl Hm)).
Defined.

Lemma api_hook_touches_content_type_only_witness :
  let req := order_request "/api" in
  let p := mkProxyReq (req_headers req) [] in
  pr_headers (api_onProxyReq p req) !! "content-length"
    = pr_headers p !! "content-length" ∧
  pr_headers (api_onProxyReq p req) !! "content-type"
    = Some (HStr "application/json").
Proof.
  intros req p.
  destruct (api_hook_touches_content_type_only p req "content-length")
    as (_ & Hk & Ht).
  split; [apply Hk; discriminate | apply Ht; reflexivity].
Defined.
